(** * WaveFileReader: a shallow embedding of [src/audio_input/WaveFileReader.cpp]

    The RIFF/WAVE reader of rhubarb-lip-sync: the constructor scans the chunk
    list of a container up to its data chunk, [getNextSample] then decodes one
    sample per call into a 32-bit float.

    Machine integers are [Z] with the wrap-around written out, the byte source
    is a list of bytes with a cursor, exceptions are explicit results, and
    32-bit floats are [spec_float] at precision 24. *)

From Stdlib Require Import ZArith List String Ascii Bool Lia.
From Stdlib Require Import Strings.Byte DecimalString.
From Stdlib Require Import Floats.SpecFloat.
Import ListNotations.

Local Open Scope Z_scope.

(* ================================================================= *)
(** ** Machine integers *)

Module MachineInt.

(** [intN_t]: the two's-complement reading of the low [w] bits. *)
Definition to_sint (w : Z) (z : Z) : Z :=
  (z + 2 ^ (w - 1)) mod 2 ^ w - 2 ^ (w - 1).

(** [int] is 32 bits wide on every platform the program is built for. *)
Definition to_int : Z -> Z := to_sint 32.

Definition INT16_MIN : Z := -32768.
Definition INT16_MAX : Z := 32767.
Definition UINT8_MAX : Z := 255.

End MachineInt.
Import MachineInt.

(* ================================================================= *)
(** ** 32-bit IEEE-754 floats *)

Module Float32.

Definition prec : Z := 24.
Definition emax : Z := 128.

(** The C++ type [float]. *)
Definition float : Type := spec_float.

(** [static_cast<float>(i)] and the implicit [int] to [float] conversion:
    round to nearest, ties to even. *)
Definition of_int (i : Z) : float := binary_normalize prec emax i 0 false.

Definition div (x y : float) : float := SFdiv prec emax x y.
Definition mul (x y : float) : float := SFmul prec emax x y.
Definition sub (x y : float) : float := SFsub prec emax x y.

(** The value whose binary32 encoding is the 32-bit word [w]: bit 31 is the
    sign, bits 23..30 the biased exponent, bits 0..22 the fraction. *)
Definition of_bits (w : Z) : float :=
  let s := Z.testbit w 31 in
  let e := Z.land (Z.shiftr w 23) 255 in
  let m := Z.land w 8388607 in
  if e =? 0 then
    match m with
    | Zpos p => S754_finite s p (-149)
    | _ => S754_zero s
    end
  else if e =? 255 then
    (if m =? 0 then S754_infinity s else S754_nan)
  else
    match m + 8388608 with
    | Zpos p => S754_finite s p (e - 150)
    | _ => S754_nan
    end.

(** The binary32 encoding of a value, quiet NaN for [S754_nan]. *)
Definition to_bits (x : float) : Z :=
  let sign (s : bool) := if s then 2147483648 else 0 in
  match x with
  | S754_zero s => sign s
  | S754_infinity s => sign s + 2139095040
  | S754_nan => 2143289344
  | S754_finite s m e =>
      if Zpos m <? 8388608 then sign s + Zpos m
      else sign s + (e + 150) * 8388608 + (Zpos m - 8388608)
  end.

Definition one : float := S754_finite false 8388608 (-23).
Definition minus_one : float := S754_finite true 8388608 (-23).
Definition half : float := S754_finite false 8388608 (-24).

End Float32.
Import Float32.

(* ================================================================= *)
(** ** The byte source and the little-endian readers *)

Module IoTools.

(** What a call can throw.  The specification calls [runtime_error] a
    FormatError and the stream's own [ios_base::failure] an IOError. *)
Inductive exn : Type :=
| runtime_error (what : string)
| ios_failure.

(** Outcome of a computation: a value, an exception, an operation the
    language leaves undefined (integer division by zero), or a scan loop
    that was cut off by its fuel. *)
Inductive result (A : Type) : Type :=
| Ok (a : A)
| Throw (e : exn)
| Undefined (what : string)
| OutOfFuel.
Arguments Ok {A} a.
Arguments Throw {A} e.
Arguments Undefined {A} what.
Arguments OutOfFuel {A}.

(** Modelled from the spec: the byte source, a [std::ifstream] opened in
    binary mode with [failbit] and [badbit] raising exceptions.  It is a
    sequence of bytes with a read cursor; a read past the end and a seek
    before the start fail, a seek past the end succeeds and makes the next
    read fail. *)
Record ifstream : Type := mkStream { content : list byte; tellg : Z }.

Definition open (bytes : list byte) : ifstream :=
  {| content := bytes; tellg := 0 |}.

(** Computations over the stream. *)
Definition io (A : Type) : Type := ifstream -> result (A * ifstream).

Definition ret {A} (a : A) : io A := fun f => Ok (a, f).
Definition throw {A} (e : exn) : io A := fun _ => Throw e.
Definition undefined {A} (what : string) : io A := fun _ => Undefined what.
Definition bind {A B} (c : io A) (k : A -> io B) : io B :=
  fun f =>
    match c f with
    | Ok (a, f') => k a f'
    | Throw e => Throw e
    | Undefined w => Undefined w
    | OutOfFuel => OutOfFuel
    end.

Declare Scope io_scope.
Delimit Scope io_scope with io.
Notation "x <- c ;; k" := (bind c (fun x => k))
  (at level 61, c at next level, right associativity) : io_scope.
Notation "c ;;; k" := (bind c (fun _ => k))
  (at level 61, right associativity) : io_scope.
Local Open Scope io_scope.

(** [stream.get()]: the byte at the cursor, or a failure at the end. *)
Definition get : io Z :=
  fun f =>
    if tellg f <? 0 then Throw ios_failure
    else match nth_error (content f) (Z.to_nat (tellg f)) with
         | Some b => Ok (Z.of_N (Byte.to_N b),
                         {| content := content f; tellg := tellg f + 1 |})
         | None => Throw ios_failure
         end.

(** [file.seekg(off, file.cur)] *)
Definition seekg_cur (off : Z) : io unit :=
  fun f =>
    let p := tellg f + off in
    if p <? 0 then Throw ios_failure
    else Ok (tt, {| content := content f; tellg := p |}).

(** The value of a little-endian byte sequence. *)
Fixpoint le_value (bs : list Z) : Z :=
  match bs with
  | [] => 0
  | b :: rest => b + 256 * le_value rest
  end.

Fixpoint get_bytes (n : nat) : io (list Z) :=
  match n with
  | O => ret []
  | S k => b <- get ;; bs <- get_bytes k ;; ret (b :: bs)
  end.

(** Modelled from the spec: [little_endian::read<Type, bits>] of io_tools.h,
    a fixed-width little-endian read of [bits / 8] bytes into a zeroed
    [Type]. *)
Definition read_le (n : nat) : io Z :=
  bs <- get_bytes n ;; ret (le_value bs).

Definition read_uint8 : io Z := read_le 1.
Definition read_uint16 : io Z := read_le 2.
Definition read_uint32 : io Z := read_le 4.
Definition read_int16 : io Z := v <- read_le 2 ;; ret (to_sint 16 v).
(** Modelled from the spec: [read<int, 24>] of io_tools.h, three
    little-endian bytes zero-extended into an [int]. *)
Definition read_int_24 : io Z := read_le 3.
(** Modelled from the spec: [read<float>] of io_tools.h, the value whose
    binary32 encoding is the next four little-endian bytes. *)
Definition read_float : io float := v <- read_le 4 ;; ret (of_bits v).

Definition byte_val (b : byte) : Z := Z.of_N (Byte.to_N b).

(** Modelled from the spec: [fourcc] of io_tools.h, the 32-bit value that a
    little-endian read of the four ASCII characters gives. *)
Definition fourcc (c0 c1 c2 c3 : byte) : Z :=
  le_value [byte_val c0; byte_val c1; byte_val c2; byte_val c3].

(** Modelled from the spec: [fourccToString] of io_tools.h, the four
    characters of a tag in file order. *)
Definition fourccToString (v : Z) : string :=
  let ch (i : Z) :=
    ascii_of_N (Z.to_N (Z.land (Z.shiftr v (8 * i)) 255)) in
  String (ch 0) (String (ch 1) (String (ch 2) (String (ch 3) EmptyString))).

End IoTools.
Import IoTools.
Local Open Scope io_scope.

(* ================================================================= *)
(** ** WaveFileReader.cpp *)

Definition INT24_MIN : Z := -8388608.
Definition INT24_MAX : Z := 8388607.

(** Converts an int in the range min..max to a float in the range -1..1:
    [(static_cast<float>(value - min) / (max - min) * 2) - 1]. *)
Definition toNormalizedFloat (value min max : Z) : float :=
  sub (mul (div (of_int (to_int (value - min))) (of_int (to_int (max - min))))
           (of_int 2))
      (of_int 1).

(** [(i + 1) & (~1)] on [int]. *)
Definition roundToEven (i : Z) : Z :=
  Z.land (to_int (i + 1)) (Z.lnot 1).

(** [enum class Codec { PCM = 0x01, Float = 0x03 }]; the cast from the
    16-bit tag keeps every other value, which [switch] sends to [default]. *)
Inductive Codec : Type :=
| PCM
| Float
| OtherCodec (tag : Z).

Definition Codec_of_tag (tag : Z) : Codec :=
  if tag =? 1 then PCM else if tag =? 3 then Float else OtherCodec tag.

(** Modelled from the spec: [SampleFormat] of WaveFileReader.h, the closed
    set of sample encodings. *)
Inductive SampleFormat : Type :=
| UInt8
| Int16
| Int24
| Float32.

(** Modelled from the spec: the members of [class WaveFileReader] declared
    in WaveFileReader.h; the counters are [int]. *)
Record WaveFileReader : Type := mkWaveFileReader {
  file : ifstream;
  sampleFormat : SampleFormat;
  frameRate : Z;
  frameCount : Z;
  channelCount : Z;
  remainingSamples : Z
}.

(** The members that the fmt case assigns. *)
Record FormatMembers : Type := mkFormatMembers {
  fm_sampleFormat : SampleFormat;
  fm_frameRate : Z;
  fm_channelCount : Z
}.

(** The state of the scan loop: the local [bytesPerSample], initially zero,
    and the format members, [None] while they are uninitialised. *)
Record ScanState : Type := mkScanState {
  bytesPerSample : Z;
  members : option FormatMembers
}.

Definition initialScanState : ScanState :=
  {| bytesPerSample := 0; members := None |}.

Definition decimal (i : Z) : string := NilZero.string_of_int (Z.to_int i).

(** Lines 68 to 80: the sample size of the PCM codec. *)
Definition pcmSampleFormat (bitsPerSample : Z) : io (SampleFormat * Z) :=
  if bitsPerSample =? 8 then ret (UInt8, 1)
  else if bitsPerSample <=? 16 then ret (Int16, 2)
  else if bitsPerSample <=? 24 then ret (Int24, 3)
  else throw (runtime_error
                ("Unsupported sample format: " ++ decimal bitsPerSample
                 ++ "-bit integer samples.")).

(** Lines 63 to 95: [switch (codec)]. *)
Definition determineSampleFormat
    (codec : Codec) (bitsPerSample frameSize channels : Z)
  : io (SampleFormat * Z) :=
  match codec with
  | PCM =>
      fb <- pcmSampleFormat bitsPerSample ;;
      if channels =? 0 then undefined "integer division by zero"
      else if negb (snd fb =? Z.quot frameSize channels)
           then throw (runtime_error "Unsupported sample organization.")
           else ret fb
  | Float =>
      if bitsPerSample =? 32 then ret (Float32, 4)
      else throw (runtime_error
                    ("Unsupported sample format: " ++ decimal bitsPerSample
                     ++ "-bit floating-point samples."))
  | OtherCodec _ =>
      throw (runtime_error
               "Unsupported sample format. Only uncompressed formats are supported.")
  end.

(** Lines 50 to 97: [case fourcc('f', 'm', 't', ' ')]. *)
Definition fmtChunk (chunkSize : Z) : io ScanState :=
  tag <- read_uint16 ;;
  let codec := Codec_of_tag tag in
  channels <- read_uint16 ;;
  rate <- read_uint32 ;;
  read_uint32 ;;;
  frameSize <- read_uint16 ;;
  bitsPerSample <- read_uint16 ;;
  seekg_cur (to_int (roundToEven chunkSize - 16)) ;;;
  fb <- determineSampleFormat codec bitsPerSample frameSize channels ;;
  ret {| bytesPerSample := snd fb;
         members := Some {| fm_sampleFormat := fst fb;
                            fm_frameRate := to_int rate;
                            fm_channelCount := channels |} |}.

(** Lines 98 to 103: [case fourcc('d', 'a', 't', 'a')].  The two divisions
    are [int] divisions, which truncate; a zero divisor is undefined. *)
Definition dataChunk (chunkSize : Z) (st : ScanState) : io WaveFileReader :=
  fun f =>
    if bytesPerSample st =? 0 then Undefined "integer division by zero"
    else
      let remaining := to_int (Z.quot chunkSize (bytesPerSample st)) in
      match members st with
      | None => Undefined "read of an uninitialised member"
      | Some m =>
          if fm_channelCount m =? 0 then Undefined "integer division by zero"
          else
            Ok ({| file := f;
                   sampleFormat := fm_sampleFormat m;
                   frameRate := fm_frameRate m;
                   frameCount := to_int (Z.quot remaining (fm_channelCount m));
                   channelCount := fm_channelCount m;
                   remainingSamples := remaining |}, f)
      end.

(** Lines 104 to 108: skip unknown chunk. *)
Definition skipChunk (chunkSize : Z) : io unit :=
  seekg_cur (roundToEven chunkSize).

(** One pass through the body of the [do] loop, lines 47 to 109: either the
    data chunk was reached and the object is complete, or the loop goes on. *)
Definition scanChunk (st : ScanState) : io (WaveFileReader + ScanState) :=
  chunkId <- read_uint32 ;;
  size <- read_uint32 ;;
  let chunkSize := to_int size in
  if chunkId =? fourcc "f" "m" "t" " " then
    st' <- fmtChunk chunkSize ;; ret (inr st')
  else if chunkId =? fourcc "d" "a" "t" "a" then
    r <- dataChunk chunkSize st ;; ret (inl r)
  else
    skipChunk chunkSize ;;; ret (inr st).

(** Lines 46 to 110: [do { ... } while (!reachedDataChunk)]. *)
Fixpoint scanChunks (fuel : nat) (st : ScanState) : io WaveFileReader :=
  match fuel with
  | O => fun _ => OutOfFuel
  | S fuel' =>
      next <- scanChunk st ;;
      match next with
      | inl r => ret r
      | inr st' => scanChunks fuel' st'
      end
  end.

(** Lines 33 to 41: the RIFF header. *)
Definition readHeader : io unit :=
  rootChunkId <- read_uint32 ;;
  if negb (rootChunkId =? fourcc "R" "I" "F" "F") then
    throw (runtime_error "Unknown file format. Only WAVE files are supported.")
  else
    read_uint32 ;;;
    waveId <- read_uint32 ;;
    if negb (waveId =? fourcc "W" "A" "V" "E") then
      throw (runtime_error
               ("File format is not WAVE, but " ++ fourccToString waveId ++ "."))
    else ret tt.

(** [WaveFileReader::WaveFileReader], on the bytes of the file that
    [fileName] names. *)
Definition WaveFileReader_ctor (fuel : nat) (bytes : list byte)
  : result WaveFileReader :=
  match (readHeader ;;; scanChunks fuel initialScanState) (open bytes) with
  | Ok (this, _) => Ok this
  | Throw e => Throw e
  | Undefined w => Undefined w
  | OutOfFuel => OutOfFuel
  end.

Definition getFrameRate (this : WaveFileReader) : Z := frameRate this.
Definition getFrameCount (this : WaveFileReader) : Z := frameCount this.
Definition getChannelCount (this : WaveFileReader) : Z := channelCount this.

(** How a call of [getNextSample] ends: it returns its [bool] with the
    caller's [sample] variable and the object as the call leaves them, or a
    read raises, the counter already decremented. *)
Inductive NextSample : Type :=
| Returned (more : bool) (sample : float) (this : WaveFileReader)
| Raised (e : exn) (this : WaveFileReader).

Definition withFile (this : WaveFileReader) (f : ifstream) (remaining : Z)
  : WaveFileReader :=
  {| file := f;
     sampleFormat := sampleFormat this;
     frameRate := frameRate this;
     frameCount := frameCount this;
     channelCount := channelCount this;
     remainingSamples := remaining |}.

(** Line 142: [if (raw & 0x800000) raw |= 0xFF000000;] on [int]. *)
Definition fixTwosComplement (raw : Z) : Z :=
  if negb (Z.land raw 8388608 =? 0) then to_int (Z.lor raw 4278190080)
  else raw.

(** Lines 129 to 150: [switch (sampleFormat)]. *)
Definition decodeSample (fmt : SampleFormat) : io float :=
  match fmt with
  | UInt8 =>
      raw <- read_uint8 ;;
      ret (toNormalizedFloat raw 0 UINT8_MAX)
  | Int16 =>
      raw <- read_int16 ;;
      ret (toNormalizedFloat raw INT16_MIN INT16_MAX)
  | Int24 =>
      raw <- read_int_24 ;;
      ret (toNormalizedFloat (fixTwosComplement raw) INT24_MIN INT24_MAX)
  | Float32 =>
      read_float
  end.

(** [WaveFileReader::getNextSample(float &sample)].  The readers end in a
    value or in [ios_failure] only. *)
Definition getNextSample (this : WaveFileReader) (sample : float)
  : NextSample :=
  if remainingSamples this =? 0 then Returned false sample this
  else
    let remaining := to_int (remainingSamples this - 1) in
    match decodeSample (sampleFormat this) (file this) with
    | Ok (s, f) => Returned true s (withFile this f remaining)
    | Throw e => Raised e (withFile this (file this) remaining)
    | Undefined _ | OutOfFuel =>
        Raised ios_failure (withFile this (file this) remaining)
    end.

(* ================================================================= *)
(** ** Callers and sample containers *)

(** The number of bytes one sample of a format takes in the data chunk. *)
Definition sampleBytes (fmt : SampleFormat) : Z :=
  match fmt with
  | UInt8 => 1
  | Int16 => 2
  | Int24 => 3
  | Float32 => 4
  end.

(** A caller that pulls samples until the first "no more": the number of
    calls that returned [true] before it, [None] if a call raised or the
    caller gave up after [fuel] calls. *)
Fixpoint successfulCalls (fuel : nat) (this : WaveFileReader) (sample : float)
  : option nat :=
  match fuel with
  | O => None
  | S fuel' =>
      match getNextSample this sample with
      | Returned false _ _ => Some O
      | Returned true s this' => option_map S (successfulCalls fuel' this' s)
      | Raised _ _ => None
      end
  end.

(** The samples that the first [n] calls deliver. *)
Fixpoint pullSamples (n : nat) (this : WaveFileReader) (sample : float)
  : list float :=
  match n with
  | O => []
  | S n' =>
      match getNextSample this sample with
      | Returned true s this' => s :: pullSamples n' this' s
      | _ => []
      end
  end.


(** What the scan loop keeps true of its state: before the first fmt chunk
    [bytesPerSample] is zero, after one it is the size of the chosen format
    and the channel count is a 16-bit value. *)
Definition scanInvariant (st : ScanState) : Prop :=
  match members st with
  | None => bytesPerSample st = 0
  | Some m =>
      0 <= fm_channelCount m < 65536 /\
      bytesPerSample st = sampleBytes (fm_sampleFormat m)
  end.

Module Containers.

(** [n] little-endian bytes of [v]. *)
Fixpoint le_bytes (n : nat) (v : Z) : list byte :=
  match n with
  | O => []
  | S k =>
      match Byte.of_N (Z.to_N (v mod 256)) with
      | Some b => b :: le_bytes k (v / 256)
      | None => []
      end
  end.

Definition tag (s : string) : list byte := list_byte_of_string s.

Definition riffHeader : list byte :=
  (tag "RIFF" ++ le_bytes 4 0 ++ tag "WAVE")%list.

(** A 16-byte fmt chunk. *)
Definition fmtChunkBytes (codec channels rate frameSize bits : Z)
  : list byte :=
  (tag "fmt " ++ le_bytes 4 16 ++ le_bytes 2 codec ++ le_bytes 2 channels
     ++ le_bytes 4 rate ++ le_bytes 4 (rate * frameSize)
     ++ le_bytes 2 frameSize ++ le_bytes 2 bits)%list.

Definition dataChunkBytes (payload : list byte) : list byte :=
  (tag "data" ++ le_bytes 4 (Z.of_nat (List.length payload)) ++ payload)%list.

(** 8-bit mono PCM with the samples 0x00, 0xFF, 0x80. *)
Definition mono8 : list byte :=
  (riffHeader ++ fmtChunkBytes 1 1 8000 1 8
     ++ dataChunkBytes [x00; xff; x80])%list.

(** PCM that declares 4 bits per sample, one channel, 2-byte frames. *)
Definition pcm4 : list byte :=
  (riffHeader ++ fmtChunkBytes 1 1 8000 2 4
     ++ dataChunkBytes [x00; x00; x00; x00])%list.

(** Float codec, two channels, but a declared frame size of 4 bytes. *)
Definition floatStereoFrame4 : list byte :=
  (riffHeader ++ fmtChunkBytes 3 2 8000 4 32
     ++ dataChunkBytes [x00; x00; x00; x3f; x00; x00; x00; x3f])%list.

(** 16-bit PCM, two channels, but a declared frame size of 5 bytes. *)
Definition pcmStereoFrame5 : list byte :=
  (riffHeader ++ fmtChunkBytes 1 2 8000 5 16
     ++ dataChunkBytes [x00; x00; x00; x00])%list.

(** The data chunk comes first. *)
Definition dataBeforeFmt : list byte :=
  (riffHeader ++ dataChunkBytes [x00; xff; x80]
     ++ fmtChunkBytes 1 1 8000 1 8)%list.

(** 16-bit stereo PCM whose data chunk holds three samples, one and a
    half frames. *)
Definition stereo16Odd : list byte :=
  (riffHeader ++ fmtChunkBytes 1 2 8000 4 16
     ++ dataChunkBytes [x00; x00; xff; x7f; x00; x80])%list.

(** A "LIST" chunk of declared size 5 and its pad byte before the usual
    fmt and data chunks. *)
Definition oddUnknownChunk : list byte :=
  (riffHeader ++ tag "LIST" ++ le_bytes 4 5 ++ [x01; x02; x03; x04; x05; x00]
     ++ fmtChunkBytes 1 1 8000 1 8 ++ dataChunkBytes [x00; xff; x80])%list.

(** A "LIST" chunk that declares 0xFFFFFFF8 bytes. *)
Definition hugeUnknownChunk : list byte :=
  (riffHeader ++ tag "LIST" ++ [xf8; xff; xff; xff]
     ++ fmtChunkBytes 1 1 8000 1 8 ++ dataChunkBytes [x00; xff; x80])%list.

(** A "JUNK" chunk that declares 0x80000010 bytes. *)
Definition hugeJunkChunk : list byte :=
  (riffHeader ++ tag "JUNK" ++ [x10; x00; x00; x80]
     ++ fmtChunkBytes 1 1 8000 1 8 ++ dataChunkBytes [x00; xff; x80])%list.

(** One float sample with the encoding of 0.5. *)
Definition floatHalf : list byte :=
  (riffHeader ++ fmtChunkBytes 3 1 8000 4 32
     ++ dataChunkBytes [x00; x00; x00; x3f])%list.

(** A 4-bit PCM file whose frames are one byte. *)
Definition pcm4Frame1 : list byte :=
  (riffHeader ++ fmtChunkBytes 1 1 8000 1 4
     ++ dataChunkBytes [x00; x00; x00; x00])%list.

(** A stream that has delivered its three samples. *)
Definition exhaustedStream : WaveFileReader :=
  {| file := mkStream [x00; xff; x80] 3;
     sampleFormat := UInt8;
     frameRate := 8000;
     frameCount := 3;
     channelCount := 1;
     remainingSamples := 0 |}.


(** The stream that construction makes of [stereo16Odd]. *)
Definition stereo16OddStream : WaveFileReader :=
  {| file := mkStream stereo16Odd 44;
     sampleFormat := Int16;
     frameRate := 8000;
     frameCount := 1;
     channelCount := 2;
     remainingSamples := 3 |}.

(** A Float32 stream at its only sample, the encoding of 0.5. *)
Definition floatHalfStream : WaveFileReader :=
  {| file := mkStream [x00; x00; x00; x3f] 0;
     sampleFormat := Float32;
     frameRate := 8000;
     frameCount := 1;
     channelCount := 1;
     remainingSamples := 1 |}.

End Containers.
Import Containers.

(* ================================================================= *)
(** ** Checks over all raw values and further sample streams *)

(** A sample inside the closed range from -1.0 to 1.0. *)
Definition inUnitRange (x : float) : bool :=
  SFleb minus_one x && SFleb x one.

(** The decodings of the 256 values of an 8-bit sample, in order. *)
Definition uint8Samples : list float :=
  map (fun k => toNormalizedFloat (Z.of_nat k) 0 UINT8_MAX) (seq 0 256).

(** Every element is below all the elements after it. *)
Fixpoint strictlyIncreasing (l : list float) : bool :=
  match l with
  | [] => true
  | x :: rest => forallb (SFltb x) rest && strictlyIncreasing rest
  end.

(** A 16-bit stream with two samples left and one byte in the file. *)
Definition truncatedStream : WaveFileReader :=
  {| file := mkStream [x00; xff; x80] 2;
     sampleFormat := Int16;
     frameRate := 8000;
     frameCount := 2;
     channelCount := 1;
     remainingSamples := 2 |}.

(** An 18-byte fmt chunk payload (PCM, 1 channel, 8000 Hz, 8 bits, and an
    empty extension) followed by a data chunk. *)
Definition fmt18Payload : list byte :=
  (le_bytes 2 1 ++ le_bytes 2 1 ++ le_bytes 4 8000 ++ le_bytes 4 8000
     ++ le_bytes 2 1 ++ le_bytes 2 8 ++ le_bytes 2 0
     ++ dataChunkBytes [x00; xff; x80])%list.

(** The value of two little-endian bytes, as [read<uint16_t>] returns it. *)
Definition le16 (b0 b1 : byte) : Z := le_value [byte_val b0; byte_val b1].

(** A file with a fmt chunk after the bytes [pre]: the identifier, the
    four size bytes, the sixteen format bytes (codec tag, channel count,
    frame rate, byte rate, frame size, bits per sample) and the bytes
    [post]. *)
Definition fmtChunkAt
    (pre : list byte)
    (z0 z1 z2 z3 t0 t1 c0 c1 r0 r1 r2 r3 a0 a1 a2 a3 f0 f1 b0 b1 : byte)
    (post : list byte) : list byte :=
  (pre ++ tag "fmt " ++ [z0; z1; z2; z3]
     ++ [t0; t1; c0; c1; r0; r1; r2; r3; a0; a1; a2; a3; f0; f1; b0; b1]
     ++ post)%list.

(** A file whose first chunk is a fmt chunk: "RIFF", any four bytes in the
    size field, "WAVE", and the chunk. *)
Definition fmtFirst
    (h0 h1 h2 h3 : byte)
    (z0 z1 z2 z3 t0 t1 c0 c1 r0 r1 r2 r3 a0 a1 a2 a3 f0 f1 b0 b1 : byte)
    (rest : list byte) : list byte :=
  fmtChunkAt (tag "RIFF" ++ [h0; h1; h2; h3] ++ tag "WAVE")%list
    z0 z1 z2 z3 t0 t1 c0 c1 r0 r1 r2 r3 a0 a1 a2 a3 f0 f1 b0 b1 rest.

(** The sample size that lines 68 to 76 choose for a depth of at most 24
    bits. *)
Definition pcmBytesPerSample (bitsPerSample : Z) : Z :=
  if bitsPerSample =? 8 then 1 else if bitsPerSample <=? 16 then 2 else 3.

(** A 24-bit stream with two samples left, its cursor one byte into the
    file, on the bytes FF FF 7F. *)
Definition int24Stream : WaveFileReader :=
  {| file := mkStream [x11; xff; xff; x7f; x00; x00; x80] 1;
     sampleFormat := Int24;
     frameRate := 8000;
     frameCount := 2;
     channelCount := 1;
     remainingSamples := 2 |}.

(** An 8-bit stream with two samples left, its cursor one byte into the
    file. *)
Definition uint8Stream : WaveFileReader :=
  {| file := mkStream [x11; x7f; x80] 1;
     sampleFormat := UInt8;
     frameRate := 8000;
     frameCount := 2;
     channelCount := 1;
     remainingSamples := 2 |}.

(** A 16-bit stream with two samples left, its cursor one byte into the
    file, on the bytes 00 80. *)
Definition int16Stream : WaveFileReader :=
  {| file := mkStream [x11; x00; x80; xff; x7f] 1;
     sampleFormat := Int16;
     frameRate := 8000;
     frameCount := 2;
     channelCount := 1;
     remainingSamples := 2 |}.

(** A well-formed 8-bit mono file of 47 bytes: the RIFF size field holds
    39, the length of the file less 8. *)
Definition mono8WellFormed : list byte :=
  (tag "RIFF" ++ le_bytes 4 39 ++ tag "WAVE" ++ fmtChunkBytes 1 1 8000 1 8
     ++ dataChunkBytes [x00; xff; x80])%list.

(* ================================================================= *)
(** ** Wrap-around *)

Lemma to_sint_small (w z : Z) :
  0 < w -> - 2 ^ (w - 1) <= z < 2 ^ (w - 1) -> to_sint w z = z.
Proof.
  intros Hw Hz. unfold to_sint.
  assert (E : 2 ^ w = 2 * 2 ^ (w - 1)).
  { replace w with (Z.succ (w - 1)) at 1 by lia. apply Z.pow_succ_r. lia. }
  rewrite Z.mod_small; lia.
Qed.

Lemma to_int_small (z : Z) : - 2147483648 <= z < 2147483648 -> to_int z = z.
Proof. intros Hz. apply to_sint_small; simpl; lia. Qed.


(* ================================================================= *)
(** ** Bytes and little-endian values *)

Lemma byte_val_range (b : byte) : 0 <= byte_val b < 256.
Proof.
  unfold byte_val. pose proof (Byte.to_N_bounded b) as H.
  split; [apply N2Z.is_nonneg|].
  apply N.lt_succ_r in H. change (N.succ 255) with 256%N in H.
  apply N2Z.inj_lt in H. exact H.
Qed.

Lemma byte_val_inj (a b : byte) : byte_val a = byte_val b -> a = b.
Proof.
  unfold byte_val. intros H. apply N2Z.inj in H.
  assert (E : Byte.of_N (Byte.to_N a) = Byte.of_N (Byte.to_N b))
    by (rewrite H; reflexivity).
  rewrite !Byte.of_to_N in E. congruence.
Qed.

Lemma fourcc_range (c0 c1 c2 c3 : byte) : 0 <= fourcc c0 c1 c2 c3 < 2 ^ 32.
Proof.
  unfold fourcc, le_value.
  pose proof (byte_val_range c0). pose proof (byte_val_range c1).
  pose proof (byte_val_range c2). pose proof (byte_val_range c3).
  change (2 ^ 32) with 4294967296. lia.
Qed.

Lemma fourcc_inj (a0 a1 a2 a3 b0 b1 b2 b3 : byte) :
  fourcc a0 a1 a2 a3 = fourcc b0 b1 b2 b3 ->
  [a0; a1; a2; a3] = [b0; b1; b2; b3].
Proof.
  unfold fourcc, le_value. intros H.
  pose proof (byte_val_range a0). pose proof (byte_val_range a1).
  pose proof (byte_val_range a2). pose proof (byte_val_range a3).
  pose proof (byte_val_range b0). pose proof (byte_val_range b1).
  pose proof (byte_val_range b2). pose proof (byte_val_range b3).
  assert (byte_val a0 = byte_val b0) by lia.
  assert (byte_val a1 = byte_val b1) by lia.
  assert (byte_val a2 = byte_val b2) by lia.
  assert (byte_val a3 = byte_val b3) by lia.
  f_equal; [|f_equal; [|f_equal; [|f_equal]]]; now apply byte_val_inj.
Qed.

(** A read at the cursor of a stream whose next bytes are known. *)
Lemma get_next (pre : list byte) (b : byte) (post : list byte) :
  get (mkStream (pre ++ b :: post) (Z.of_nat (List.length pre)))
  = Ok (byte_val b,
        mkStream (pre ++ b :: post) (Z.of_nat (List.length (pre ++ [b])))).
Proof.
  unfold get; cbn [tellg content].
  destruct (Z.ltb_spec (Z.of_nat (List.length pre)) 0) as [Hneg|_]; [lia|].
  rewrite Nat2Z.id, nth_error_app2 by lia.
  rewrite Nat.sub_diag. cbn [nth_error].
  rewrite length_app. cbn [List.length].
  do 3 f_equal. lia.
Qed.

Lemma get_bytes_next (bs pre post : list byte) :
  get_bytes (List.length bs)
    (mkStream (pre ++ bs ++ post) (Z.of_nat (List.length pre)))
  = Ok (map byte_val bs,
        mkStream (pre ++ bs ++ post) (Z.of_nat (List.length (pre ++ bs)))).
Proof.
  revert pre. induction bs as [|b bs IH]; intros pre.
  - cbn. unfold ret. now rewrite app_nil_r.
  - cbn [List.length get_bytes app map]. unfold bind at 1.
    rewrite get_next. unfold bind at 1.
    replace (pre ++ b :: bs ++ post)%list
      with ((pre ++ [b]) ++ bs ++ post)%list
      by (rewrite <- app_assoc; reflexivity).
    rewrite IH. unfold ret. rewrite <- !app_assoc. reflexivity.
Qed.


Lemma le_value_bytes_range (bs : list byte) :
  0 <= le_value (map byte_val bs) < 256 ^ Z.of_nat (List.length bs).
Proof.
  induction bs as [|b bs IH].
  - cbn. lia.
  - cbn [map le_value List.length]. rewrite Nat2Z.inj_succ, Z.pow_succ_r by lia.
    pose proof (byte_val_range b). lia.
Qed.


(* ================================================================= *)
(** ** Normalization *)

(** C7: [toNormalizedFloat] is exact at both endpoints of every range that
    [getNextSample] uses: (0, 255), (-32768, 32767) and
    (-8388608, 8388607) are sent to -1.0 at the minimum and to 1.0 at the
    maximum, with no rounding error in the binary32 operations. *)
Theorem toNormalizedFloat_endpoints :
  toNormalizedFloat 0 0 UINT8_MAX = minus_one /\
  toNormalizedFloat UINT8_MAX 0 UINT8_MAX = one /\
  toNormalizedFloat INT16_MIN INT16_MIN INT16_MAX = minus_one /\
  toNormalizedFloat INT16_MAX INT16_MIN INT16_MAX = one /\
  toNormalizedFloat INT24_MIN INT24_MIN INT24_MAX = minus_one /\
  toNormalizedFloat INT24_MAX INT24_MIN INT24_MAX = one.
Proof. repeat split; vm_compute; reflexivity. Qed.

(** The constants are the literal values of -1.0, 1.0 and 0.5. *)
Lemma float_constants :
  one = of_int 1 /\ minus_one = of_int (-1) /\
  half = div (of_int 1) (of_int 2) /\
  to_bits one = 1065353216 /\ to_bits minus_one = 3212836864 /\
  to_bits half = 1056964608.
Proof. repeat split; vm_compute; reflexivity. Qed.

(* ================================================================= *)
(** ** The exhausted stream *)

(** C10: when [remainingSamples] is zero, [getNextSample] returns [false]
    and leaves the object (counter and file cursor) and the caller's
    [sample] variable as they were; no byte is read, whatever the state of
    the file. *)
Theorem getNextSample_exhausted (this : WaveFileReader) (sample : float) :
  remainingSamples this = 0 ->
  getNextSample this sample = Returned false sample this.
Proof. intros H. unfold getNextSample. rewrite H. reflexivity. Qed.

(** The third call on a stream of three samples has been made; the fourth
    changes nothing. *)
Lemma getNextSample_exhausted_witness :
  remainingSamples exhaustedStream = 0 /\
  getNextSample exhaustedStream half = Returned false half exhaustedStream.
Proof.
  split; [reflexivity|].
  apply (getNextSample_exhausted exhaustedStream half). reflexivity.
Defined.

(* ================================================================= *)
(** ** The fmt chunk: sample format and frame size *)

Lemma pcmSampleFormat_8 (f : ifstream) :
  pcmSampleFormat 8 f = Ok ((UInt8, 1), f).
Proof. reflexivity. Qed.

Lemma pcmSampleFormat_9_16 (bits : Z) (f : ifstream) :
  9 <= bits <= 16 -> pcmSampleFormat bits f = Ok ((Int16, 2), f).
Proof.
  intros H. unfold pcmSampleFormat.
  destruct (Z.eqb_spec bits 8); [lia|].
  destruct (Z.leb_spec bits 16); [reflexivity|lia].
Qed.

Lemma pcmSampleFormat_17_24 (bits : Z) (f : ifstream) :
  17 <= bits <= 24 -> pcmSampleFormat bits f = Ok ((Int24, 3), f).
Proof.
  intros H. unfold pcmSampleFormat.
  destruct (Z.eqb_spec bits 8); [lia|].
  destruct (Z.leb_spec bits 16); [lia|].
  destruct (Z.leb_spec bits 24); [reflexivity|lia].
Qed.

Lemma pcmSampleFormat_above_24 (bits : Z) (f : ifstream) :
  24 < bits ->
  pcmSampleFormat bits f
  = Throw (runtime_error ("Unsupported sample format: " ++ decimal bits
                          ++ "-bit integer samples.")).
Proof.
  intros H. unfold pcmSampleFormat.
  destruct (Z.eqb_spec bits 8); [lia|].
  destruct (Z.leb_spec bits 16); [lia|].
  destruct (Z.leb_spec bits 24); [lia|reflexivity].
Qed.

(** Below 8 bits the first test, an equality, fails and the second
    accepts. *)
Lemma pcmSampleFormat_below_8 (bits : Z) (f : ifstream) :
  bits < 8 -> pcmSampleFormat bits f = Ok ((Int16, 2), f).
Proof.
  intros H. unfold pcmSampleFormat.
  destruct (Z.eqb_spec bits 8); [lia|].
  destruct (Z.leb_spec bits 16); [reflexivity|lia].
Qed.

(** C1: the code at a PCM fmt chunk that declares 4 bits per sample.  The
    sample format becomes Int16 with 2 bytes per sample, not UInt8 with 1:
    with 2-byte frames the container is accepted as 16-bit audio, with
    1-byte frames it is refused for its sample organization. *)
Theorem pcm_4_bit_is_Int16 :
  pcmSampleFormat 4 (open []) = Ok ((Int16, 2), open []) /\
  (exists this,
      WaveFileReader_ctor 2 pcm4 = Ok this /\
      sampleFormat this = Int16 /\ remainingSamples this = 2) /\
  WaveFileReader_ctor 2 pcm4Frame1
  = Throw (runtime_error "Unsupported sample organization.").
Proof.
  split; [reflexivity|]. split; [|vm_compute; reflexivity].
  eexists. split; [vm_compute; reflexivity|]. split; reflexivity.
Qed.

(** What the frame-size test of the PCM case establishes: the quotient of
    the [int] division, not the product. *)
Lemma pcm_frame_check
    (bits frameSize channels : Z) (f f' : ifstream) (fb : SampleFormat * Z) :
  determineSampleFormat PCM bits frameSize channels f = Ok (fb, f') ->
  channels <> 0 /\ snd fb = Z.quot frameSize channels.
Proof.
  unfold determineSampleFormat, bind.
  destruct (pcmSampleFormat bits f) as [[fb0 f0]| | |]; try discriminate.
  destruct (Z.eqb_spec channels 0); [discriminate|].
  destruct (Z.eqb_spec (snd fb0) (Z.quot frameSize channels)); cbn [negb].
  - unfold ret. intros H; inversion H; subst. split; assumption.
  - discriminate.
Qed.

Lemma pcm_frame_check_exact
    (bits frameSize channels : Z) (f f' : ifstream) (fb : SampleFormat * Z) :
  determineSampleFormat PCM bits frameSize channels f = Ok (fb, f') ->
  Z.rem frameSize channels = 0 ->
  snd fb * channels = frameSize.
Proof.
  intros H Hrem. destruct (pcm_frame_check _ _ _ _ _ _ H) as [Hc Hq].
  rewrite Hq. pose proof (Z.quot_rem frameSize channels Hc). lia.
Qed.

(** The Float case has no frame-size test. *)
Lemma float_no_frame_check (frameSize channels : Z) (f : ifstream) :
  determineSampleFormat Float 32 frameSize channels f = Ok ((Float32, 4), f).
Proof. reflexivity. Qed.

(** C2: the code at two fmt chunks whose frame size is not the product of
    sample size and channel count.  A Float chunk with 2 channels and
    4-byte frames (4 * 2 is 8) is accepted because that case has no
    test; a 16-bit PCM chunk with 2 channels and 5-byte frames (2 * 2 is 4)
    is accepted because the test compares with the truncated quotient 5 / 2.
    Both containers are constructed. *)
Theorem frame_size_mismatch_accepted :
  determineSampleFormat Float 32 4 2 (open []) = Ok ((Float32, 4), open []) /\
  (exists this,
      WaveFileReader_ctor 2 floatStereoFrame4 = Ok this /\
      sampleFormat this = Float32 /\ getChannelCount this = 2) /\
  determineSampleFormat PCM 16 5 2 (open []) = Ok ((Int16, 2), open []) /\
  (exists this,
      WaveFileReader_ctor 2 pcmStereoFrame5 = Ok this /\
      sampleFormat this = Int16 /\ getChannelCount this = 2).
Proof.
  split; [reflexivity|]. split.
  { eexists. split; [vm_compute; reflexivity|]. split; reflexivity. }
  split; [reflexivity|].
  eexists. split; [vm_compute; reflexivity|]. split; reflexivity.
Qed.

(* ================================================================= *)
(** ** The data chunk *)

(** C3: the code at every container whose first chunk is the data chunk.
    [bytesPerSample] still has its initial value 0 and
    [chunkSize / bytesPerSample] divides by zero, whatever the declared size
    and whatever follows, a fmt chunk included; the claim's "never divides
    by zero" fails here. *)
Theorem data_before_fmt_divides_by_zero :
  (forall (fuel : nat) (s0 s1 s2 s3 : byte) (rest : list byte),
      WaveFileReader_ctor (S fuel)
        (riffHeader ++ tag "data" ++ [s0; s1; s2; s3] ++ rest)
      = Undefined "integer division by zero") /\
  WaveFileReader_ctor 3 dataBeforeFmt = Undefined "integer division by zero".
Proof.
  split.
  - intros fuel s0 s1 s2 s3 rest. reflexivity.
  - vm_compute. reflexivity.
Qed.

(* ================================================================= *)
(** ** Skipping unknown chunks *)

Lemma land_lnot_1 (x : Z) : Z.land x (Z.lnot 1) = 2 * (x / 2).
Proof.
  rewrite <- Z.ldiff_land. change 1 with (Z.ones 1) at 1.
  rewrite Z.ldiff_ones_r by lia.
  rewrite Z.shiftl_mul_pow2, Z.shiftr_div_pow2 by lia.
  change (2 ^ 1) with 2. lia.
Qed.

(** Up to [INT_MAX - 1], [roundToEven] is the next even number. *)
Lemma roundToEven_small (i : Z) :
  - 2147483648 <= i <= 2147483646 -> roundToEven i = i + i mod 2.
Proof.
  intros H. unfold roundToEven.
  rewrite to_int_small by lia. rewrite land_lnot_1.
  pose proof (Z.div_mod (i + 1) 2 ltac:(lia)).
  pose proof (Z.mod_pos_bound (i + 1) 2 ltac:(lia)).
  pose proof (Z.div_mod i 2 ltac:(lia)).
  pose proof (Z.mod_pos_bound i 2 ltac:(lia)).
  lia.
Qed.

(** A chunk that is neither fmt nor data and declares up to [INT_MAX - 1]
    bytes is stepped over: the cursor moves by the declared size rounded up
    to the next even count, and the scan state is unchanged. *)
Lemma scanChunk_skips_small
    (st : ScanState) (f f1 f2 : ifstream) (chunkId size : Z) :
  read_uint32 f = Ok (chunkId, f1) ->
  read_uint32 f1 = Ok (size, f2) ->
  chunkId <> fourcc "f" "m" "t" " " ->
  chunkId <> fourcc "d" "a" "t" "a" ->
  0 <= size <= 2147483646 ->
  0 <= tellg f2 ->
  scanChunk st f
  = Ok (inr st, mkStream (content f2) (tellg f2 + (size + size mod 2))).
Proof.
  intros H1 H2 Hfmt Hdata Hsize Hpos. unfold scanChunk.
  unfold bind at 1. rewrite H1. unfold bind at 1. rewrite H2.
  apply Z.eqb_neq in Hfmt. apply Z.eqb_neq in Hdata. rewrite Hfmt, Hdata.
  unfold skipChunk, bind, seekg_cur, ret.
  rewrite to_int_small by lia. rewrite roundToEven_small by lia.
  pose proof (Z.mod_pos_bound size 2 ltac:(lia)).
  destruct (Z.ltb_spec (tellg f2 + (size + size mod 2)) 0); [lia|].
  reflexivity.
Qed.

(** The chunk of declared size 5 is skipped as 6 bytes: from the chunk
    identifier at offset 12 the cursor goes to offset 12 + 8 + 6, where the
    fmt chunk starts, and the container is read. *)
Lemma odd_chunk_skipped_as_6 :
  roundToEven 5 = 6 /\
  scanChunk initialScanState (mkStream oddUnknownChunk 12)
  = Ok (inr initialScanState, mkStream oddUnknownChunk 26) /\
  exists this,
    WaveFileReader_ctor 3 oddUnknownChunk = Ok this /\
    sampleFormat this = UInt8 /\ remainingSamples this = 3.
Proof.
  split; [reflexivity|]. split; [vm_compute; reflexivity|].
  eexists. split; [vm_compute; reflexivity|]. split; reflexivity.
Qed.

Lemma scanChunks_huge_chunk (fuel : nat) :
  scanChunks fuel initialScanState (mkStream hugeUnknownChunk 12) = OutOfFuel.
Proof.
  induction fuel as [|fuel IH]; [reflexivity|].
  cbn [scanChunks]. unfold bind at 1.
  replace (scanChunk initialScanState (mkStream hugeUnknownChunk 12))
    with (Ok (inr WaveFileReader initialScanState,
              mkStream hugeUnknownChunk 12))
    by (vm_compute; reflexivity).
  exact IH.
Qed.

(** C8: the code at unknown chunks that declare 2^31 bytes or more.  The
    size is stored in an [int]: 0xFFFFFFF8 becomes -8, [roundToEven] keeps
    -8, and the seek moves the cursor 8 bytes back, to the identifier of
    the same chunk, instead of 4294967288 bytes forward, so the pass leaves
    the cursor where it started and the scan loop never reaches the data
    chunk.  A declared size of 0x80000010 becomes -2147483632 and the seek,
    to a position before the start of the file, fails. *)
Theorem huge_chunk_not_skipped :
  to_int 4294967288 = -8 /\
  roundToEven (-8) = -8 /\
  scanChunk initialScanState (mkStream hugeUnknownChunk 12)
  = Ok (inr initialScanState, mkStream hugeUnknownChunk 12) /\
  (forall fuel, WaveFileReader_ctor fuel hugeUnknownChunk = OutOfFuel) /\
  roundToEven (to_int 2147483664) = -2147483632 /\
  WaveFileReader_ctor 3 hugeJunkChunk = Throw ios_failure.
Proof.
  split; [reflexivity|]. split; [reflexivity|].
  split; [vm_compute; reflexivity|]. split.
  - intros fuel. unfold WaveFileReader_ctor, bind.
    replace (readHeader (open hugeUnknownChunk))
      with (Ok (tt, mkStream hugeUnknownChunk 12))
      by (vm_compute; reflexivity).
    rewrite scanChunks_huge_chunk. reflexivity.
  - split; vm_compute; reflexivity.
Qed.

(* ================================================================= *)
(** ** The RIFF header *)

Lemma ascii_of_byte_val (b : byte) :
  ascii_of_N (Z.to_N (byte_val b)) = ascii_of_byte b.
Proof.
  unfold byte_val. rewrite N2Z.id. destruct b; reflexivity.
Qed.

Lemma land_255 (x : Z) : Z.land x 255 = x mod 256.
Proof. change 255 with (Z.ones 8). rewrite Z.land_ones by lia. reflexivity. Qed.

(** The tag named in the message is the four bytes as they are in the
    file. *)
Lemma fourccToString_fourcc (c0 c1 c2 c3 : byte) :
  fourccToString (fourcc c0 c1 c2 c3) = string_of_list_byte [c0; c1; c2; c3].
Proof.
  unfold fourccToString, fourcc, le_value. cbn [string_of_list_byte].
  pose proof (byte_val_range c0). pose proof (byte_val_range c1).
  pose proof (byte_val_range c2). pose proof (byte_val_range c3).
  rewrite !land_255, !Z.shiftr_div_pow2 by lia.
  change (2 ^ (8 * 0)) with 1. change (2 ^ (8 * 1)) with 256.
  change (2 ^ (8 * 2)) with 65536. change (2 ^ (8 * 3)) with 16777216.
  set (v := byte_val c0 + 256 * (byte_val c1 + 256 * (byte_val c2
            + 256 * (byte_val c3 + 256 * 0)))).
  assert (E0 : (v / 1) mod 256 = byte_val c0)
    by (subst v; Z.div_mod_to_equations; lia).
  assert (E1 : (v / 256) mod 256 = byte_val c1)
    by (subst v; Z.div_mod_to_equations; lia).
  assert (E2 : (v / 65536) mod 256 = byte_val c2)
    by (subst v; Z.div_mod_to_equations; lia).
  assert (E3 : (v / 16777216) mod 256 = byte_val c3)
    by (subst v; Z.div_mod_to_equations; lia).
  rewrite E0, E1, E2, E3, !ascii_of_byte_val. reflexivity.
Qed.

Lemma read_uint32_at
    (c : list byte) (p : Z) (pre : list byte) (c0 c1 c2 c3 : byte)
    (post : list byte) :
  c = (pre ++ [c0; c1; c2; c3] ++ post)%list ->
  p = Z.of_nat (List.length pre) ->
  read_uint32 (mkStream c p) = Ok (fourcc c0 c1 c2 c3, mkStream c (p + 4)).
Proof.
  intros -> ->.
  pose proof (get_bytes_next [c0; c1; c2; c3] pre post) as H.
  rewrite length_app in H. cbn [List.length map] in H.
  unfold read_uint32, read_le, bind. rewrite H.
  unfold ret, fourcc. do 3 f_equal. lia.
Qed.

(** C9: construction throws a [runtime_error] (FormatError) and returns no
    stream whenever the first four bytes are not "RIFF", and whenever they
    are but the four bytes after the size field are not "WAVE"; the second
    message names the tag that was found. *)
Theorem ctor_rejects_bad_header
    (fuel : nat) (b0 b1 b2 b3 s0 s1 s2 s3 t0 t1 t2 t3 : byte)
    (rest : list byte) :
  ([b0; b1; b2; b3] <> tag "RIFF" ->
   WaveFileReader_ctor fuel (b0 :: b1 :: b2 :: b3 :: rest)
   = Throw (runtime_error
              "Unknown file format. Only WAVE files are supported.")) /\
  ([t0; t1; t2; t3] <> tag "WAVE" ->
   WaveFileReader_ctor fuel
     (tag "RIFF" ++ [s0; s1; s2; s3] ++ [t0; t1; t2; t3] ++ rest)
   = Throw (runtime_error
              ("File format is not WAVE, but "
               ++ string_of_list_byte [t0; t1; t2; t3] ++ "."))).
Proof.
  split.
  - intros Hne. unfold WaveFileReader_ctor, open, readHeader.
    unfold bind at 1. unfold bind at 1.
    rewrite (read_uint32_at (b0 :: b1 :: b2 :: b3 :: rest) 0
               [] b0 b1 b2 b3 rest eq_refl eq_refl).
    destruct (Z.eqb_spec (fourcc b0 b1 b2 b3) (fourcc "R" "I" "F" "F"))
      as [E|_].
    + exfalso. apply Hne. apply fourcc_inj in E. exact E.
    + reflexivity.
  - intros Hne. unfold WaveFileReader_ctor, open, readHeader.
    set (c := (tag "RIFF" ++ [s0; s1; s2; s3] ++ [t0; t1; t2; t3] ++ rest)%list).
    unfold bind at 1. unfold bind at 1.
    rewrite (read_uint32_at c 0 [] "R" "I" "F" "F"
               ([s0; s1; s2; s3] ++ [t0; t1; t2; t3] ++ rest)
               eq_refl eq_refl).
    rewrite Z.eqb_refl. cbn [negb]. unfold bind at 1.
    rewrite (read_uint32_at c (0 + 4) (tag "RIFF") s0 s1 s2 s3
               ([t0; t1; t2; t3] ++ rest) eq_refl eq_refl).
    unfold bind at 1.
    rewrite (read_uint32_at c (0 + 4 + 4) (tag "RIFF" ++ [s0; s1; s2; s3])
               t0 t1 t2 t3 rest eq_refl eq_refl).
    destruct (Z.eqb_spec (fourcc t0 t1 t2 t3) (fourcc "W" "A" "V" "E"))
      as [E|_].
    + exfalso. apply Hne. apply fourcc_inj in E. exact E.
    + cbn [negb]. unfold throw. rewrite fourccToString_fourcc. reflexivity.
Qed.

(** A file that starts with "RIFX", and a RIFF file of form type "AVI ". *)
Lemma ctor_rejects_bad_header_witness :
  (["R"%byte; "I"%byte; "F"%byte; "X"%byte]
   <> tag "RIFF" /\
   WaveFileReader_ctor 1 (tag "RIFX" ++ le_bytes 4 0 ++ tag "WAVE")
   = Throw (runtime_error
              "Unknown file format. Only WAVE files are supported.")) /\
  (["A"%byte; "V"%byte; "I"%byte; " "%byte]
   <> tag "WAVE" /\
   WaveFileReader_ctor 1 (tag "RIFF" ++ le_bytes 4 0 ++ tag "AVI ")
   = Throw (runtime_error "File format is not WAVE, but AVI .")).
Proof.
  split; (split; [discriminate|]).
  - apply (proj1 (ctor_rejects_bad_header 1 "R" "I" "F" "X" x00 x00 x00 x00
                    "W" "A" "V" "E" (le_bytes 4 0 ++ tag "WAVE"))).
    discriminate.
  - apply (proj2 (ctor_rejects_bad_header 1 "R" "I" "F" "X" x00 x00 x00 x00
                    "A" "V" "I" " " [])).
    discriminate.
Defined.

(* ================================================================= *)
(** ** 24-bit samples *)

Lemma land_bit23_low (v : Z) : 0 <= v < 8388608 -> Z.land v 8388608 = 0.
Proof.
  intros H. apply Z.bits_inj'. intros n Hn.
  rewrite Z.land_spec, Z.bits_0.
  change 8388608 with (2 ^ 23). rewrite Z.pow2_bits_eqb by lia.
  destruct (Z.eqb_spec 23 n) as [<-|_]; [|apply andb_false_r].
  rewrite andb_true_r. apply Z.testbit_false; [lia|].
  rewrite Z.div_small by (change (2 ^ 23) with 8388608; lia). reflexivity.
Qed.

Lemma testbit23_high (v : Z) :
  8388608 <= v < 16777216 -> Z.testbit v 23 = true.
Proof.
  intros H. apply Z.testbit_true; [lia|].
  change (2 ^ 23) with 8388608. Z.div_mod_to_equations. lia.
Qed.

Lemma land_bit23_high (v : Z) :
  8388608 <= v < 16777216 -> Z.land v 8388608 <> 0.
Proof.
  intros H E.
  assert (B : Z.testbit (Z.land v 8388608) 23 = true).
  { rewrite Z.land_spec, testbit23_high by lia. reflexivity. }
  rewrite E, Z.bits_0 in B. discriminate.
Qed.

Lemma lor_high_byte (v : Z) :
  0 <= v < 16777216 -> Z.lor v 4278190080 = v + 4278190080.
Proof.
  intros H. pose proof (Z.add_lor_land v 4278190080) as A.
  enough (L : Z.land v 4278190080 = 0) by lia.
  apply Z.bits_inj'. intros n Hn. rewrite Z.land_spec, Z.bits_0.
  destruct (Z.ltb_spec n 24) as [Hlt|Hge].
  - change 4278190080 with (Z.shiftl 255 24).
    rewrite Z.shiftl_spec by lia. rewrite (Z.testbit_neg_r 255) by lia.
    apply andb_false_r.
  - destruct (Z.eq_dec v 0) as [->|Hv]; [now rewrite Z.bits_0|].
    rewrite (Z.bits_above_log2 v n); [reflexivity|lia|].
    apply Z.lt_le_trans with 24; [|lia].
    apply Z.log2_lt_pow2; [lia|]. change (2 ^ 24) with 16777216. lia.
Qed.

(** The fix-up of line 142 reads the 24 bits as a two's-complement
    number. *)
Lemma fixTwosComplement_sint24 (v : Z) :
  0 <= v < 16777216 -> fixTwosComplement v = to_sint 24 v.
Proof.
  intros H. unfold fixTwosComplement, to_sint.
  change (2 ^ (24 - 1)) with 8388608. change (2 ^ 24) with 16777216.
  destruct (Z.lt_ge_cases v 8388608) as [Hlo|Hhi].
  - rewrite land_bit23_low by lia. cbn [Z.eqb negb].
    rewrite Z.mod_small; lia.
  - pose proof (land_bit23_high v ltac:(lia)) as Hne.
    apply Z.eqb_neq in Hne. rewrite Hne. cbn [negb].
    rewrite lor_high_byte by lia. unfold to_int, to_sint.
    change (2 ^ (32 - 1)) with 2147483648. change (2 ^ 32) with 4294967296.
    Z.div_mod_to_equations. lia.
Qed.

(** Bits 24 and up of the fixed value repeat bit 23. *)
Lemma fixTwosComplement_high_bits (v : Z) (k : nat) :
  0 <= v < 16777216 ->
  Z.testbit (fixTwosComplement v) (24 + Z.of_nat k) = Z.testbit v 23.
Proof.
  intros H. rewrite fixTwosComplement_sint24 by exact H. unfold to_sint.
  change (2 ^ (24 - 1)) with 8388608. change (2 ^ 24) with 16777216.
  destruct (Z.lt_ge_cases v 8388608) as [Hlo|Hhi].
  - rewrite Z.mod_small by lia.
    replace (v + 8388608 - 8388608) with v by lia.
    assert (B23 : Z.testbit v 23 = false).
    { apply Z.testbit_false; [lia|].
      rewrite Z.div_small by (change (2 ^ 23) with 8388608; lia).
      reflexivity. }
    rewrite B23.
    destruct (Z.eq_dec v 0) as [->|Hv]; [apply Z.bits_0|].
    apply Z.bits_above_log2; [lia|].
    apply Z.lt_le_trans with 23; [|lia].
    apply Z.log2_lt_pow2; [lia|]. change (2 ^ 23) with 8388608. lia.
  - rewrite testbit23_high by lia.
    assert (E : (v + 8388608) mod 16777216 - 8388608 = v - 16777216)
      by (Z.div_mod_to_equations; lia).
    rewrite E.
    destruct (Z.eq_dec v 16777215) as [->|Hv].
    + change (16777215 - 16777216) with (-1). apply Z.bits_m1. lia.
    + apply Z.bits_above_log2_neg; [lia|].
      apply Z.lt_le_trans with 24; [|lia].
      apply Z.log2_lt_pow2; [lia|]. change (2 ^ 24) with 16777216. lia.
Qed.

(** A call on a stream with samples left delivers what [decodeSample]
    reads at the cursor. *)
Lemma getNextSample_decodes
    (this : WaveFileReader) (sample s : float) (f' : ifstream) :
  remainingSamples this <> 0 ->
  decodeSample (sampleFormat this) (file this) = Ok (s, f') ->
  getNextSample this sample
  = Returned true s (withFile this f' (to_int (remainingSamples this - 1))).
Proof.
  intros Hrem D. unfold getNextSample.
  apply Z.eqb_neq in Hrem. rewrite Hrem, D. reflexivity.
Qed.

(** Three bytes at any cursor of any file. *)
Lemma decodeSample_Int24_at
    (c : list byte) (p : Z) (pre : list byte) (b0 b1 b2 : byte)
    (post : list byte) :
  c = (pre ++ [b0; b1; b2] ++ post)%list ->
  p = Z.of_nat (List.length pre) ->
  decodeSample Int24 (mkStream c p)
  = Ok (toNormalizedFloat
          (fixTwosComplement
             (byte_val b0 + 256 * byte_val b1 + 65536 * byte_val b2))
          INT24_MIN INT24_MAX,
        mkStream c (p + 3)).
Proof.
  intros -> ->.
  pose proof (get_bytes_next [b0; b1; b2] pre post) as G.
  rewrite length_app in G. cbn [List.length map] in G.
  unfold decodeSample, read_int_24, read_le, bind. rewrite G.
  unfold ret. cbn [le_value].
  replace (byte_val b0 + 256 * (byte_val b1 + 256 * (byte_val b2 + 256 * 0)))
    with (byte_val b0 + 256 * byte_val b1 + 65536 * byte_val b2) by lia.
  do 3 f_equal. lia.
Qed.

(** C5, as the code has it: for every stream of format Int24 with samples
    left, at every cursor of every file, [getNextSample] delivers the three
    payload bytes at the cursor read in little-endian order and
    zero-extended to a value below 2^24; line 142 turns it into the
    two's-complement reading of these 24 bits, so that bits 24 and up
    repeat bit 23; the result goes through
    [toNormalizedFloat(raw, -8388608, 8388607)].  The bytes 0xFF 0xFF 0x7F
    (value 0x7FFFFF) decode to exactly 1.0 and the bytes 0x00 0x00 0x80
    (value 0x800000) to exactly -1.0. *)
Theorem int24_decoding
    (this : WaveFileReader) (sample : float)
    (pre : list byte) (b0 b1 b2 : byte) (post : list byte) :
  sampleFormat this = Int24 ->
  remainingSamples this <> 0 ->
  file this
  = mkStream (pre ++ [b0; b1; b2] ++ post) (Z.of_nat (List.length pre)) ->
  let v := byte_val b0 + 256 * byte_val b1 + 65536 * byte_val b2 in
  0 <= v < 16777216 /\
  getNextSample this sample
  = Returned true
      (toNormalizedFloat (fixTwosComplement v) INT24_MIN INT24_MAX)
      (withFile this
         (mkStream (pre ++ [b0; b1; b2] ++ post)
                   (Z.of_nat (List.length pre) + 3))
         (to_int (remainingSamples this - 1))) /\
  fixTwosComplement v = to_sint 24 v /\
  (forall k : nat,
      Z.testbit (fixTwosComplement v) (24 + Z.of_nat k) = Z.testbit v 23) /\
  ([b0; b1; b2] = [xff; xff; x7f] ->
   v = 8388607 /\
   toNormalizedFloat (fixTwosComplement v) INT24_MIN INT24_MAX = one) /\
  ([b0; b1; b2] = [x00; x00; x80] ->
   v = 8388608 /\
   toNormalizedFloat (fixTwosComplement v) INT24_MIN INT24_MAX = minus_one).
Proof.
  intros Hfmt Hrem Hfile v.
  pose proof (byte_val_range b0). pose proof (byte_val_range b1).
  pose proof (byte_val_range b2).
  assert (Hv : 0 <= v < 16777216) by (subst v; lia).
  split; [exact Hv|]. split.
  { apply getNextSample_decodes; [exact Hrem|].
    rewrite Hfmt, Hfile.
    apply (decodeSample_Int24_at _ _ pre b0 b1 b2 post); reflexivity. }
  split; [apply fixTwosComplement_sint24; exact Hv|].
  split; [intros k; apply fixTwosComplement_high_bits; exact Hv|].
  split; intros E; inversion E; subst b0 b1 b2; subst v;
    (split; vm_compute; reflexivity).
Qed.

(** A 24-bit stream with its cursor on the bytes FF FF 7F, one byte into
    the file: the call delivers 1.0 and moves on by three bytes. *)
Lemma int24_decoding_witness :
  sampleFormat int24Stream = Int24 /\
  remainingSamples int24Stream <> 0 /\
  file int24Stream
  = mkStream ([x11] ++ [xff; xff; x7f] ++ [x00; x00; x80])
             (Z.of_nat (List.length [x11])) /\
  getNextSample int24Stream half
  = Returned true one
      (withFile int24Stream
         (mkStream [x11; xff; xff; x7f; x00; x00; x80] 4) 1).
Proof.
  assert (H1 : sampleFormat int24Stream = Int24) by reflexivity.
  assert (H2 : remainingSamples int24Stream <> 0) by discriminate.
  assert (H3 : file int24Stream
               = mkStream ([x11] ++ [xff; xff; x7f] ++ [x00; x00; x80])
                          (Z.of_nat (List.length [x11]))) by reflexivity.
  split; [exact H1|]. split; [exact H2|]. split; [exact H3|].
  destruct (int24_decoding int24Stream half [x11] xff xff x7f
              [x00; x00; x80] H1 H2 H3) as (_ & G & _ & _ & E & _).
  destruct (E eq_refl) as [_ E1].
  rewrite G, E1. reflexivity.
Defined.

(** C5, as stated, fails: read in little-endian order the bytes
    0x7F 0xFF 0xFF are the value 0xFFFF7F, not 0x7FFFFF; bit 23 is set, the
    fixed value is -129, and the sample is a small negative number
    (about -0.0000153), far from 1.0. *)
Lemma int24_7F_FF_FF_is_not_plus_one :
  le_value (map byte_val [x7f; xff; xff]) = 16777087 /\
  16777087 <> 8388607 /\
  fixTwosComplement 16777087 = -129 /\
  decodeSample Int24 (open [x7f; xff; xff])
  = Ok (S754_finite true 8421376 (-39), mkStream [x7f; xff; xff] 3) /\
  SFltb (S754_finite true 8421376 (-39)) (of_int 0) = true /\
  decodeSample Int24 (open [x7f; xff; xff])
  <> Ok (one, mkStream [x7f; xff; xff] 3).
Proof.
  split; [reflexivity|]. split; [discriminate|]. split; [reflexivity|].
  split; [vm_compute; reflexivity|]. split; [reflexivity|].
  vm_compute. discriminate.
Qed.

(* ================================================================= *)
(** ** Float samples *)

Lemma get_bytes_are_bytes (n : nat) (f f' : ifstream) (vs : list Z) :
  get_bytes n f = Ok (vs, f') ->
  exists bs : list byte, vs = map byte_val bs /\ List.length bs = n.
Proof.
  revert f f' vs. induction n as [|n IH]; intros f f' vs.
  - cbn. unfold ret. intros H. inversion H. exists []. split; reflexivity.
  - cbn [get_bytes]. unfold bind at 1. unfold get at 1.
    destruct (tellg f <? 0); [discriminate|].
    destruct (nth_error (content f) (Z.to_nat (tellg f))) as [b|];
      [|discriminate].
    unfold bind at 1.
    destruct (get_bytes n _) as [[vs0 f0]| | |] eqn:G; try discriminate.
    unfold ret. intros H. inversion H; subst.
    destruct (IH _ _ _ G) as (bs & -> & Hlen).
    exists (b :: bs). split; [reflexivity|]. cbn. now rewrite Hlen.
Qed.

Lemma read_uint32_range (f f' : ifstream) (w : Z) :
  read_uint32 f = Ok (w, f') -> 0 <= w < 4294967296.
Proof.
  unfold read_uint32, read_le, bind.
  destruct (get_bytes 4 f) as [[vs f0]| | |] eqn:G; try discriminate.
  unfold ret. intros H. inversion H; subst.
  destruct (get_bytes_are_bytes _ _ _ _ G) as (bs & -> & Hlen).
  pose proof (le_value_bytes_range bs) as R. rewrite Hlen in R. exact R.
Qed.

(** Decoding a binary32 word and encoding it again gives the word back,
    NaN payloads apart: [of_bits] loses nothing else. *)
Lemma to_bits_of_bits (w : Z) :
  0 <= w < 4294967296 -> of_bits w <> S754_nan -> to_bits (of_bits w) = w.
Proof.
  intros Hw. unfold of_bits.
  rewrite land_255, Z.shiftr_div_pow2 by lia.
  change 8388607 with (Z.ones 23). rewrite Z.land_ones by lia.
  change (2 ^ 23) with 8388608.
  set (e := (w / 8388608) mod 256). set (m := w mod 8388608).
  assert (Hm : 0 <= m < 8388608) by (subst m; apply Z.mod_pos_bound; lia).
  assert (He : 0 <= e < 256) by (subst e; apply Z.mod_pos_bound; lia).
  assert (Hs : w = (if Z.testbit w 31 then 2147483648 else 0)
                   + e * 8388608 + m).
  { destruct (Z.testbit w 31) eqn:B.
    - apply Z.testbit_true in B; [|lia].
      change (2 ^ 31) with 2147483648 in B.
      subst e m. Z.div_mod_to_equations. lia.
    - apply Z.testbit_false in B; [|lia].
      change (2 ^ 31) with 2147483648 in B.
      subst e m. Z.div_mod_to_equations. lia. }
  clearbody e m. destruct (Z.testbit w 31);
    (destruct (Z.eqb_spec e 0) as [E0|E0];
     [ destruct m as [|p|p]; cbn [to_bits]; intros _; try lia;
       destruct (Z.ltb_spec (Z.pos p) 8388608); lia
     | destruct (Z.eqb_spec e 255) as [E255|E255];
       [ destruct (Z.eqb_spec m 0); [cbn [to_bits]; intros _; lia
                                     | intros N; now elim N]
       | destruct (m + 8388608) as [|p|p] eqn:P; try lia;
         cbn [to_bits]; intros _;
         destruct (Z.ltb_spec (Z.pos p) 8388608); lia ] ]).
Qed.

(** C6: in a Float32 stream [getNextSample] hands the caller the value
    whose binary32 encoding is the next four bytes of the data chunk, and
    does nothing else to it: the sample encodes back to the same 32-bit
    word, whether or not the value lies in [-1, 1].  The encoding of 0.5
    decodes to 0.5, and the encodings of 2.0 and of -3.5 decode to 2.0 and
    to -3.5, unclamped. *)
Theorem float32_sample_is_raw_value
    (this : WaveFileReader) (sample : float) (w : Z) (f' : ifstream) :
  sampleFormat this = Float32 ->
  remainingSamples this <> 0 ->
  read_uint32 (file this) = Ok (w, f') ->
  getNextSample this sample
  = Returned true (of_bits w)
      (withFile this f' (to_int (remainingSamples this - 1))) /\
  (of_bits w <> S754_nan -> to_bits (of_bits w) = w) /\
  (exists reader,
      WaveFileReader_ctor 2 floatHalf = Ok reader /\
      pullSamples 2 reader sample = [half]) /\
  decodeSample Float32 (open [x00; x00; x00; x40])
  = Ok (of_int 2, mkStream [x00; x00; x00; x40] 4) /\
  decodeSample Float32 (open [x00; x00; x60; xc0])
  = Ok (div (of_int (-7)) (of_int 2), mkStream [x00; x00; x60; xc0] 4).
Proof.
  intros Hfmt Hrem Hread. split.
  { unfold getNextSample. apply Z.eqb_neq in Hrem. rewrite Hrem, Hfmt.
    unfold decodeSample, read_float, bind.
    change (read_le 4) with read_uint32. rewrite Hread. reflexivity. }
  split.
  { apply to_bits_of_bits. exact (read_uint32_range _ _ _ Hread). }
  split.
  { eexists. split; [vm_compute; reflexivity|]. vm_compute. reflexivity. }
  split; vm_compute; reflexivity.
Qed.

(** A stream at the four bytes 00 00 00 3F delivers 0.5. *)
Lemma float32_sample_is_raw_value_witness :
  sampleFormat floatHalfStream = Float32 /\
  remainingSamples floatHalfStream <> 0 /\
  read_uint32 (file floatHalfStream)
  = Ok (1056964608, mkStream [x00; x00; x00; x3f] 4) /\
  getNextSample floatHalfStream minus_one
  = Returned true half
      (withFile floatHalfStream (mkStream [x00; x00; x00; x3f] 4) 0).
Proof.
  split; [reflexivity|]. split; [discriminate|]. split; [reflexivity|].
  apply (float32_sample_is_raw_value floatHalfStream minus_one 1056964608
           (mkStream [x00; x00; x00; x3f] 4));
    [reflexivity | discriminate | reflexivity].
Defined.

(* ================================================================= *)
(** ** Pulling samples *)






(* ================================================================= *)
(** ** What a constructed stream satisfies *)

Lemma get_bytes_cursor (n : nat) (f f' : ifstream) (vs : list Z) :
  get_bytes n f = Ok (vs, f') ->
  content f' = content f /\
  tellg f' = tellg f + Z.of_nat n /\
  (n <> O -> 0 <= tellg f).
Proof.
  revert f f' vs. induction n as [|n IH]; intros f f' vs.
  - cbn. unfold ret. intros H. inversion H; subst.
    repeat split; [lia|congruence].
  - cbn [get_bytes]. unfold bind at 1. unfold get at 1.
    destruct (Z.ltb_spec (tellg f) 0) as [|Hpos]; [discriminate|].
    destruct (nth_error (content f) (Z.to_nat (tellg f))) as [b|];
      [|discriminate].
    unfold bind at 1.
    destruct (get_bytes n _) as [[vs0 f0]| | |] eqn:G; try discriminate.
    unfold ret. intros E. inversion E; subst.
    destruct (IH _ _ _ G) as (Hc & Ht & _). cbn [content tellg] in *.
    repeat split; [exact Hc|lia|lia].
Qed.

Lemma read_le_result (n : nat) (f f' : ifstream) (v : Z) :
  read_le n f = Ok (v, f') ->
  0 <= v < 256 ^ Z.of_nat n /\
  content f' = content f /\
  tellg f' = tellg f + Z.of_nat n /\
  (n <> O -> 0 <= tellg f).
Proof.
  unfold read_le, bind.
  destruct (get_bytes n f) as [[vs f0]| | |] eqn:G; try discriminate.
  unfold ret. intros H. inversion H; subst.
  destruct (get_bytes_are_bytes _ _ _ _ G) as (bs & -> & Hlen).
  split; [rewrite <- Hlen; apply le_value_bytes_range|].
  exact (get_bytes_cursor _ _ _ _ G).
Qed.

Lemma determineSampleFormat_result
    (codec : Codec) (bits frameSize channels : Z) (f f' : ifstream)
    (fb : SampleFormat * Z) :
  determineSampleFormat codec bits frameSize channels f = Ok (fb, f') ->
  snd fb = sampleBytes (fst fb).
Proof.
  destruct codec as [| |t]; cbn [determineSampleFormat].
  - unfold bind, pcmSampleFormat.
    destruct (bits =? 8); [|destruct (bits <=? 16); [|destruct (bits <=? 24)]];
      unfold ret, throw; try discriminate;
      (destruct (channels =? 0); [discriminate|]);
      match goal with
      | |- context [negb ?b] => destruct b; cbn [negb]; try discriminate
      end;
      intros H; inversion H; reflexivity.
  - destruct (bits =? 32); [|discriminate].
    unfold ret. intros H; inversion H; reflexivity.
  - discriminate.
Qed.

(** Once a fmt chunk has been processed, the format is known and
    [bytesPerSample] is its size, between 1 and 4. *)
Lemma fmtChunk_result (chunkSize : Z) (f f' : ifstream) (st : ScanState) :
  fmtChunk chunkSize f = Ok (st, f') ->
  scanInvariant st /\ members st <> None /\ 1 <= bytesPerSample st <= 4.
Proof.
  unfold fmtChunk.
  unfold bind at 1.
  destruct (read_uint16 f) as [[tagv f1]| | |]; try discriminate.
  unfold bind at 1.
  destruct (read_uint16 f1) as [[channels f2]| | |] eqn:Rc; try discriminate.
  unfold bind at 1.
  destruct (read_uint32 f2) as [[rate f3]| | |]; try discriminate.
  unfold bind at 1.
  destruct (read_uint32 f3) as [[byteRate f4]| | |]; try discriminate.
  unfold bind at 1.
  destruct (read_uint16 f4) as [[frameSize f5]| | |]; try discriminate.
  unfold bind at 1.
  destruct (read_uint16 f5) as [[bits f6]| | |]; try discriminate.
  unfold bind at 1.
  destruct (seekg_cur _ f6) as [[u f7]| | |]; try discriminate.
  unfold bind at 1.
  destruct (determineSampleFormat _ _ _ _ f7) as [[fb f8]| | |] eqn:D;
    try discriminate.
  unfold ret. intros H. inversion H; subst. clear H.
  apply determineSampleFormat_result in D.
  destruct (read_le_result 2 _ _ _ Rc) as (Hch & _).
  change (256 ^ Z.of_nat 2) with 65536 in Hch.
  unfold scanInvariant. cbn [members bytesPerSample fm_channelCount
                             fm_sampleFormat].
  repeat split; try lia; try exact D; try discriminate;
    rewrite D; destruct (fst fb); cbn; lia.
Qed.

Lemma dataChunk_result
    (chunkSize : Z) (st : ScanState) (f f' : ifstream) (this : WaveFileReader) :
  scanInvariant st ->
  dataChunk chunkSize st f = Ok (this, f') ->
  file this = f /\
  0 < channelCount this < 65536 /\
  remainingSamples this
  = to_int (Z.quot chunkSize (sampleBytes (sampleFormat this))) /\
  frameCount this
  = to_int (Z.quot (remainingSamples this) (channelCount this)).
Proof.
  unfold scanInvariant, dataChunk.
  destruct (Z.eqb_spec (bytesPerSample st) 0); [discriminate|].
  destruct (members st) as [m|]; [|discriminate].
  intros (Hch & Hbps).
  destruct (Z.eqb_spec (fm_channelCount m) 0); [discriminate|].
  intros H. inversion H; subst. cbn.
  rewrite Hbps. repeat split; lia.
Qed.






(* ================================================================= *)
(** ** Fuel and an end-to-end run *)

(** More fuel does not change what the scan loop has computed. *)
Lemma scanChunks_more_fuel (fuel : nat) :
  forall (st : ScanState) (f : ifstream),
    scanChunks fuel st f <> OutOfFuel ->
    scanChunks (S fuel) st f = scanChunks fuel st f.
Proof.
  induction fuel as [|fuel IH]; intros st f H; [now elim H|].
  change (scanChunks (S (S fuel)) st f)
    with (bind (scanChunk st)
            (fun next => match next with
                         | inl r => ret r
                         | inr st' => scanChunks (S fuel) st'
                         end) f).
  change (scanChunks (S fuel) st f)
    with (bind (scanChunk st)
            (fun next => match next with
                         | inl r => ret r
                         | inr st' => scanChunks fuel st'
                         end) f) in H |- *.
  unfold bind in H |- *.
  destruct (scanChunk st f) as [[[r|st'] f1]| | |]; try reflexivity.
  apply IH. exact H.
Qed.

Lemma ctor_more_fuel (fuel : nat) (bytes : list byte) :
  WaveFileReader_ctor fuel bytes <> OutOfFuel ->
  WaveFileReader_ctor (S fuel) bytes = WaveFileReader_ctor fuel bytes.
Proof.
  unfold WaveFileReader_ctor, bind.
  destruct (readHeader (open bytes)) as [[u f1]| | |]; try reflexivity.
  intros H. rewrite scanChunks_more_fuel; [reflexivity|].
  intros E. rewrite E in H. now elim H.
Qed.

(** The 8-bit mono container with the data bytes 0x00, 0xFF, 0x80 yields
    -1.0, 1.0 and 1/255 (about 0.0039) in that order, then "no more". *)
Lemma mono8_samples :
  exists this,
    WaveFileReader_ctor 2 mono8 = Ok this /\
    getFrameRate this = 8000 /\ getFrameCount this = 3 /\
    getChannelCount this = 1 /\
    pullSamples 4 this half
    = [minus_one; one; S754_finite false 8421632 (-31)] /\
    successfulCalls 4 this half = Some 3%nat.
Proof.
  eexists. split; [vm_compute; reflexivity|].
  repeat split; vm_compute; reflexivity.
Qed.

(* ================================================================= *)
(** ** Reads: what they return and when they fail *)

Lemma read_le_at
    (c : list byte) (p : Z) (pre bs post : list byte) :
  c = (pre ++ bs ++ post)%list ->
  p = Z.of_nat (List.length pre) ->
  read_le (List.length bs) (mkStream c p)
  = Ok (le_value (map byte_val bs),
        mkStream c (p + Z.of_nat (List.length bs))).
Proof.
  intros -> ->. unfold read_le, bind. rewrite get_bytes_next.
  unfold ret. rewrite length_app. do 3 f_equal. lia.
Qed.

(** A read that needs more bytes than the file has left fails with the
    stream's failure. *)
Lemma get_bytes_short (n : nat) :
  forall f : ifstream,
    Z.of_nat (List.length (content f)) < tellg f + Z.of_nat (S n) ->
    get_bytes (S n) f = Throw ios_failure.
Proof.
  induction n as [|n IH]; intros f H;
    cbn [get_bytes]; unfold bind at 1; unfold get at 1;
    (destruct (Z.ltb_spec (tellg f) 0) as [|Hpos]; [reflexivity|]);
    (destruct (nth_error (content f) (Z.to_nat (tellg f))) as [b|] eqn:E;
       [|reflexivity]);
    assert (Hlt : (Z.to_nat (tellg f) < List.length (content f))%nat)
      by (apply nth_error_Some; congruence).
  - lia.
  - change (bind get (fun b0 => bind (get_bytes n) (fun bs => ret (b0 :: bs))))
      with (get_bytes (S n)).
    unfold bind at 1. rewrite IH; [reflexivity|].
    cbn [content tellg]. lia.
Qed.

Lemma read_le_short (n : nat) (f : ifstream) :
  n <> O ->
  Z.of_nat (List.length (content f)) < tellg f + Z.of_nat n ->
  read_le n f = Throw ios_failure.
Proof.
  intros Hn H. destruct n as [|n]; [congruence|].
  unfold read_le, bind. rewrite get_bytes_short by exact H. reflexivity.
Qed.

(** A read ends in a value or in the stream's failure, nothing else. *)
Lemma get_bytes_outcome (n : nat) :
  forall f : ifstream,
    match get_bytes n f with
    | Ok _ => True
    | Throw e => e = ios_failure
    | Undefined _ | OutOfFuel => False
    end.
Proof.
  induction n as [|n IH]; intros f; [exact I|].
  cbn [get_bytes]. unfold bind, get.
  destruct (tellg f <? 0); [reflexivity|].
  destruct (nth_error (content f) (Z.to_nat (tellg f))) as [b|];
    [|reflexivity].
  specialize (IH {| content := content f; tellg := tellg f + 1 |}).
  destruct (get_bytes n _) as [[vs f']|e|w|]; exact IH.
Qed.

Lemma read_le_outcome (n : nat) (f : ifstream) :
  (exists v f', read_le n f = Ok (v, f')) \/ read_le n f = Throw ios_failure.
Proof.
  unfold read_le, bind. pose proof (get_bytes_outcome n f) as H.
  destruct (get_bytes n f) as [[vs f']|e|w|].
  - left. eexists; eexists. reflexivity.
  - right. now subst e.
  - contradiction.
  - contradiction.
Qed.

(** What a decoded sample leaves behind: the same file, the cursor one
    sample further; a failure is the stream's. *)
Lemma decodeSample_outcome (fmt : SampleFormat) (f : ifstream) :
  (exists s f',
      decodeSample fmt f = Ok (s, f') /\
      content f' = content f /\
      tellg f' = tellg f + sampleBytes fmt) \/
  decodeSample fmt f = Throw ios_failure.
Proof.
  destruct fmt; cbn [decodeSample sampleBytes];
    unfold read_uint8, read_int16, read_int_24, read_float, bind;
    match goal with
    | |- context [read_le ?n f] =>
        destruct (read_le_outcome n f) as [(v & f' & E)|E]; rewrite E;
        [ left; destruct (read_le_result _ _ _ _ E) as (_ & Hc & Ht & _);
          eexists; eexists; split; [reflexivity|split; [exact Hc|exact Ht]]
        | right; reflexivity ]
    end.
Qed.

Lemma read_le_firstn (n : nat) (f : ifstream) :
  0 <= tellg f ->
  tellg f + Z.of_nat n <= Z.of_nat (List.length (content f)) ->
  read_le n f
  = Ok (le_value
          (map byte_val (firstn n (skipn (Z.to_nat (tellg f)) (content f)))),
        mkStream (content f) (tellg f + Z.of_nat n)).
Proof.
  intros Hpos Hlen. destruct f as [c p]; cbn [tellg content] in *.
  set (k := Z.to_nat p). set (bs := firstn n (skipn k c)).
  assert (Hbs : List.length bs = n).
  { unfold bs. rewrite length_firstn, length_skipn. lia. }
  pose proof (read_le_at c p (firstn k c) bs (skipn n (skipn k c))) as R.
  rewrite Hbs in R. apply R.
  - unfold bs. now rewrite !firstn_skipn.
  - rewrite length_firstn. lia.
Qed.

(** A read that succeeded has returned the bytes at the cursor. *)
Lemma read_le_inversion (n : nat) (f f' : ifstream) (v : Z) :
  n <> O ->
  read_le n f = Ok (v, f') ->
  0 <= tellg f /\
  tellg f + Z.of_nat n <= Z.of_nat (List.length (content f)) /\
  v = le_value
        (map byte_val (firstn n (skipn (Z.to_nat (tellg f)) (content f)))) /\
  f' = mkStream (content f) (tellg f + Z.of_nat n).
Proof.
  intros Hn R.
  destruct (read_le_result _ _ _ _ R) as (_ & _ & _ & Hpos).
  specialize (Hpos Hn).
  destruct (Z.le_gt_cases (tellg f + Z.of_nat n)
              (Z.of_nat (List.length (content f)))) as [Hlen|Hshort].
  - rewrite read_le_firstn in R by assumption. inversion R; subst.
    repeat split; assumption.
  - rewrite read_le_short in R by (assumption || lia). discriminate.
Qed.

(* ================================================================= *)
(** ** roundToEven *)

(** X1: for every [int] up to [INT_MAX - 1], [roundToEven] returns the
    least even number that is not below its argument: the result is even,
    it is the argument or the argument plus one, it is the argument exactly
    when that is even, and rounding again changes nothing.  At [INT_MAX]
    the addition overflows and the result is [INT_MIN]. *)
Theorem roundToEven_next_even (i : Z) :
  - 2147483648 <= i <= 2147483646 ->
  roundToEven i mod 2 = 0 /\
  i <= roundToEven i <= i + 1 /\
  (roundToEven i = i <-> i mod 2 = 0) /\
  roundToEven (roundToEven i) = roundToEven i /\
  roundToEven 2147483647 = - 2147483648.
Proof.
  intros H. rewrite (roundToEven_small i) by lia.
  pose proof (Z.mod_pos_bound i 2 ltac:(lia)) as B.
  assert (E : (i + i mod 2) mod 2 = 0) by (Z.div_mod_to_equations; lia).
  split; [exact E|]. split; [lia|]. split; [lia|]. split; [|reflexivity].
  rewrite roundToEven_small by (Z.div_mod_to_equations; lia).
  rewrite E. lia.
Qed.

Lemma roundToEven_next_even_witness :
  - 2147483648 <= 5 <= 2147483646 /\
  roundToEven 5 mod 2 = 0 /\ 5 <= roundToEven 5 <= 5 + 1 /\
  roundToEven (roundToEven 5) = roundToEven 5.
Proof.
  assert (H : - 2147483648 <= 5 <= 2147483646) by lia.
  destruct (roundToEven_next_even 5 H) as (H1 & H2 & _ & H4 & _).
  split; [exact H|]. split; [exact H1|]. split; [exact H2|exact H4].
Defined.

(* ================================================================= *)
(** ** Unknown chunks, byte by byte *)

(** X2: a chunk whose identifier is neither "fmt " nor "data" and whose
    size field is at most [INT_MAX - 1] is stepped over without a look at
    its payload: the cursor goes from the identifier to 8 bytes plus the
    declared size, rounded up to even, further on, also when that is past
    the end of the file, and the scan state is as before. *)
Theorem unknown_chunk_skipped
    (st : ScanState) (pre : list byte) (c0 c1 c2 c3 s0 s1 s2 s3 : byte)
    (post : list byte) :
  [c0; c1; c2; c3] <> tag "fmt " ->
  [c0; c1; c2; c3] <> tag "data" ->
  fourcc s0 s1 s2 s3 <= 2147483646 ->
  scanChunk st
    (mkStream (pre ++ [c0; c1; c2; c3] ++ [s0; s1; s2; s3] ++ post)
              (Z.of_nat (List.length pre)))
  = Ok (inr st,
        mkStream (pre ++ [c0; c1; c2; c3] ++ [s0; s1; s2; s3] ++ post)
                 (Z.of_nat (List.length pre) + 8
                  + (fourcc s0 s1 s2 s3 + fourcc s0 s1 s2 s3 mod 2))).
Proof.
  intros Hfmt Hdata Hsize.
  set (c := (pre ++ [c0; c1; c2; c3] ++ [s0; s1; s2; s3] ++ post)%list).
  pose proof (fourcc_range s0 s1 s2 s3) as R.
  rewrite (scanChunk_skips_small st _
             (mkStream c (Z.of_nat (List.length pre) + 4))
             (mkStream c (Z.of_nat (List.length pre) + 4 + 4))
             (fourcc c0 c1 c2 c3) (fourcc s0 s1 s2 s3)).
  - cbn [content tellg]. do 3 f_equal. lia.
  - apply (read_uint32_at c _ pre c0 c1 c2 c3 ([s0; s1; s2; s3] ++ post));
      reflexivity.
  - apply (read_uint32_at c _ (pre ++ [c0; c1; c2; c3]) s0 s1 s2 s3 post).
    + unfold c. rewrite <- app_assoc. reflexivity.
    + rewrite length_app. cbn [List.length]. lia.
  - intros E. apply Hfmt. apply fourcc_inj in E. exact E.
  - intros E. apply Hdata. apply fourcc_inj in E. exact E.
  - lia.
  - cbn [tellg]. lia.
Qed.

Lemma unknown_chunk_skipped_witness :
  ["L"%byte; "I"%byte; "S"%byte; "T"%byte] <> tag "fmt " /\
  ["L"%byte; "I"%byte; "S"%byte; "T"%byte] <> tag "data" /\
  fourcc x05 x00 x00 x00 <= 2147483646 /\
  scanChunk initialScanState (mkStream oddUnknownChunk 12)
  = Ok (inr initialScanState, mkStream oddUnknownChunk 26).
Proof.
  assert (H1 : ["L"%byte; "I"%byte; "S"%byte; "T"%byte] <> tag "fmt ")
    by discriminate.
  assert (H2 : ["L"%byte; "I"%byte; "S"%byte; "T"%byte] <> tag "data")
    by discriminate.
  assert (H3 : fourcc x05 x00 x00 x00 <= 2147483646)
    by (vm_compute; discriminate).
  split; [exact H1|]. split; [exact H2|]. split; [exact H3|].
  exact (unknown_chunk_skipped initialScanState riffHeader
           "L" "I" "S" "T" x05 x00 x00 x00
           ([x01; x02; x03; x04; x05; x00]
              ++ fmtChunkBytes 1 1 8000 1 8
              ++ dataChunkBytes [x00; xff; x80])
           H1 H2 H3).
Defined.

(* ================================================================= *)
(** ** Files that end too early *)

Lemma read_uint32_cases (c : list byte) (p : Z) :
  0 <= p ->
  (Z.of_nat (List.length c) < p + 4 /\
   read_uint32 (mkStream c p) = Throw ios_failure) \/
  (p + 4 <= Z.of_nat (List.length c) /\
   read_uint32 (mkStream c p)
   = Ok (le_value (map byte_val (firstn 4 (skipn (Z.to_nat p) c))),
         mkStream c (p + 4))).
Proof.
  intros Hp.
  destruct (Z.lt_ge_cases (Z.of_nat (List.length c)) (p + 4)) as [Hs|Hl].
  - left. split; [exact Hs|]. apply read_le_short; [discriminate|exact Hs].
  - right. split; [lia|]. apply (read_le_firstn 4 (mkStream c p)); cbn; lia.
Qed.

(** X3: a file of fewer than 20 bytes never becomes a stream.  Unless the
    bytes it has fail the "RIFF" or the "WAVE" test first, construction
    ends in the stream's failure (an IOError, not a FormatError): the empty
    file, a file cut inside the 12-byte header, and a complete header with
    less than one chunk header after it. *)
Theorem ctor_file_too_short (fuel : nat) (bytes : list byte) :
  (List.length bytes < 20)%nat ->
  (List.length bytes < 4)%nat \/ firstn 4 bytes = tag "RIFF" ->
  (List.length bytes < 12)%nat \/ firstn 4 (skipn 8 bytes) = tag "WAVE" ->
  WaveFileReader_ctor (S fuel) bytes = Throw ios_failure.
Proof.
  intros Hlen Hriff Hwave.
  unfold WaveFileReader_ctor, open. unfold bind at 1. unfold readHeader.
  unfold bind at 1.
  destruct (read_uint32_cases bytes 0 ltac:(lia)) as [[_ R]|[L R]];
    rewrite R; [reflexivity|]. clear R.
  destruct Hriff as [Hriff|Hriff]; [lia|].
  change (skipn (Z.to_nat 0) bytes) with bytes. rewrite Hriff.
  change (le_value (map byte_val (tag "RIFF")) =? fourcc "R" "I" "F" "F")
    with true. cbn [negb].
  unfold bind at 1.
  destruct (read_uint32_cases bytes (0 + 4) ltac:(lia)) as [[_ R]|[L2 R]];
    rewrite R; [reflexivity|]. clear R.
  unfold bind at 1.
  destruct (read_uint32_cases bytes (0 + 4 + 4) ltac:(lia)) as [[_ R]|[L3 R]];
    rewrite R; [reflexivity|]. clear R.
  destruct Hwave as [Hwave|Hwave]; [lia|].
  change (Z.to_nat (0 + 4 + 4)) with 8%nat. rewrite Hwave.
  change (le_value (map byte_val (tag "WAVE")) =? fourcc "W" "A" "V" "E")
    with true. cbn [negb]. unfold ret at 1.
  cbn [scanChunks]. unfold bind at 1. unfold scanChunk. unfold bind at 1.
  destruct (read_uint32_cases bytes (0 + 4 + 4 + 4) ltac:(lia))
    as [[_ R]|[L4 R]]; rewrite R; [reflexivity|]. clear R.
  unfold bind at 1.
  destruct (read_uint32_cases bytes (0 + 4 + 4 + 4 + 4) ltac:(lia))
    as [[_ R]|[L5 R]]; rewrite R; [reflexivity|lia].
Qed.

Lemma ctor_file_too_short_witness :
  ((List.length (@nil byte) < 20)%nat /\
   WaveFileReader_ctor 1 [] = Throw ios_failure) /\
  ((List.length riffHeader < 20)%nat /\
   firstn 4 riffHeader = tag "RIFF" /\
   firstn 4 (skipn 8 riffHeader) = tag "WAVE" /\
   WaveFileReader_ctor 1 riffHeader = Throw ios_failure).
Proof.
  split.
  - split; [cbn; lia|].
    apply (ctor_file_too_short 0 []); [cbn; lia|left; cbn; lia|left; cbn; lia].
  - assert (H1 : (List.length riffHeader < 20)%nat) by (vm_compute; lia).
    assert (H2 : firstn 4 riffHeader = tag "RIFF") by reflexivity.
    assert (H3 : firstn 4 (skipn 8 riffHeader) = tag "WAVE") by reflexivity.
    split; [exact H1|]. split; [exact H2|]. split; [exact H3|].
    exact (ctor_file_too_short 0 riffHeader H1 (or_intror H2) (or_intror H3)).
Defined.

(* ================================================================= *)
(** ** getNextSample: what a call changes *)

(** X4: when samples remain by the counter but the file has less than one
    sample left at the cursor, [getNextSample] raises the stream's failure,
    and the counter has been decremented all the same: line 127 comes
    before the read.  No sample is delivered. *)
Theorem getNextSample_truncated (this : WaveFileReader) (sample : float) :
  remainingSamples this <> 0 ->
  Z.of_nat (List.length (content (file this)))
  < tellg (file this) + sampleBytes (sampleFormat this) ->
  exists this',
    getNextSample this sample = Raised ios_failure this' /\
    remainingSamples this' = to_int (remainingSamples this - 1) /\
    content (file this') = content (file this).
Proof.
  intros Hrem Hshort. unfold getNextSample.
  apply Z.eqb_neq in Hrem. rewrite Hrem.
  assert (D : decodeSample (sampleFormat this) (file this)
              = Throw ios_failure).
  { destruct (sampleFormat this); cbn [decodeSample sampleBytes] in *;
      unfold read_uint8, read_int16, read_int_24, read_float, bind;
      rewrite read_le_short by (discriminate || exact Hshort); reflexivity. }
  rewrite D. eexists. split; [reflexivity|]. split; reflexivity.
Qed.

Lemma getNextSample_truncated_witness :
  remainingSamples truncatedStream <> 0 /\
  Z.of_nat (List.length (content (file truncatedStream)))
  < tellg (file truncatedStream) + sampleBytes (sampleFormat truncatedStream) /\
  exists this',
    getNextSample truncatedStream half = Raised ios_failure this' /\
    remainingSamples this' = to_int (remainingSamples truncatedStream - 1).
Proof.
  assert (H1 : remainingSamples truncatedStream <> 0) by discriminate.
  assert (H2 : Z.of_nat (List.length (content (file truncatedStream)))
               < tellg (file truncatedStream)
                 + sampleBytes (sampleFormat truncatedStream))
    by (vm_compute; reflexivity).
  split; [exact H1|]. split; [exact H2|].
  destruct (getNextSample_truncated truncatedStream half H1 H2)
    as (this' & G & R & _).
  exists this'. split; [exact G|exact R].
Defined.

(** X5: whatever a call of [getNextSample] does, it leaves the frame rate,
    the frame count, the channel count and the sample format of the object
    as they were, and the bytes of the file too.  A call that returns
    [true] has moved the cursor forward by exactly the size of one sample
    and taken one off the counter; a call that returns [false] has changed
    nothing and comes at counter zero only; a call that raises has raised
    the stream's failure after taking one off the counter. *)
Theorem getNextSample_effect (this : WaveFileReader) (sample : float) :
  match getNextSample this sample with
  | Returned more s this' =>
      getFrameRate this' = getFrameRate this /\
      getFrameCount this' = getFrameCount this /\
      getChannelCount this' = getChannelCount this /\
      sampleFormat this' = sampleFormat this /\
      content (file this') = content (file this) /\
      (if more
       then tellg (file this')
            = tellg (file this) + sampleBytes (sampleFormat this) /\
            remainingSamples this' = to_int (remainingSamples this - 1) /\
            remainingSamples this <> 0
       else this' = this /\ s = sample /\ remainingSamples this = 0)
  | Raised e this' =>
      e = ios_failure /\
      getFrameRate this' = getFrameRate this /\
      getFrameCount this' = getFrameCount this /\
      getChannelCount this' = getChannelCount this /\
      sampleFormat this' = sampleFormat this /\
      content (file this') = content (file this) /\
      remainingSamples this' = to_int (remainingSamples this - 1)
  end.
Proof.
  unfold getNextSample.
  destruct (Z.eqb_spec (remainingSamples this) 0) as [E|N].
  - repeat split; assumption.
  - destruct (decodeSample_outcome (sampleFormat this) (file this))
      as [(s & f' & D & Hc & Ht)|D]; rewrite D.
    + cbn. repeat split; assumption.
    + cbn. repeat split.
Qed.

(* ================================================================= *)
(** ** The pass over a fmt chunk *)

Lemma determineSampleFormat_stream
    (codec : Codec) (bits frameSize channels : Z) (f f' : ifstream)
    (fb : SampleFormat * Z) :
  determineSampleFormat codec bits frameSize channels f = Ok (fb, f') ->
  f' = f.
Proof.
  destruct codec as [| |t]; cbn [determineSampleFormat].
  - unfold bind, pcmSampleFormat.
    destruct (bits =? 8); [|destruct (bits <=? 16); [|destruct (bits <=? 24)]];
      unfold ret, throw; try discriminate;
      (destruct (channels =? 0); [discriminate|]);
      match goal with
      | |- context [negb ?b] => destruct b; cbn [negb]; try discriminate
      end;
      intros H; inversion H; reflexivity.
  - destruct (bits =? 32); [|discriminate].
    unfold ret. intros H; inversion H; reflexivity.
  - discriminate.
Qed.

Lemma read_uint16_at
    (c : list byte) (p : Z) (pre : list byte) (x0 x1 : byte)
    (post : list byte) :
  c = (pre ++ [x0; x1] ++ post)%list ->
  p = Z.of_nat (List.length pre) ->
  read_uint16 (mkStream c p) = Ok (le16 x0 x1, mkStream c (p + 2)).
Proof.
  intros Hc Hp. exact (read_le_at c p pre [x0; x1] post Hc Hp).
Qed.

Lemma seek_past_fmt (c : list byte) (q size : Z) :
  0 <= size <= 2147483646 ->
  16 <= q ->
  seekg_cur (to_int (roundToEven (to_int size) - 16)) (mkStream c q)
  = Ok (tt, mkStream c (q - 16 + (size + size mod 2))).
Proof.
  intros H Hq. pose proof (Z.mod_pos_bound size 2 ltac:(lia)) as B.
  rewrite (to_int_small size) by lia. rewrite roundToEven_small by lia.
  rewrite to_int_small by lia. unfold seekg_cur. cbn [tellg content].
  destruct (Z.ltb_spec (q + (size + size mod 2 - 16)) 0); [lia|].
  do 3 f_equal. lia.
Qed.

(** The chunk is any fmt chunk with a size field up to [INT_MAX - 1] and
    any sixteen format bytes, at any place in any file. *)
Section FmtChunk.

Variables z0 z1 z2 z3 t0 t1 c0 c1 r0 r1 r2 r3 a0 a1 a2 a3 f0 f1 b0 b1 : byte.

Hypothesis size_fits : fourcc z0 z1 z2 z3 <= 2147483646.

Local Notation chunkAt pre post :=
  (fmtChunkAt pre z0 z1 z2 z3 t0 t1 c0 c1 r0 r1 r2 r3 a0 a1 a2 a3
              f0 f1 b0 b1 post).

Local Notation first h0 h1 h2 h3 rest :=
  (fmtFirst h0 h1 h2 h3 z0 z1 z2 z3 t0 t1 c0 c1 r0 r1 r2 r3 a0 a1 a2 a3
            f0 f1 b0 b1 rest).

(** The pass of the scan loop over the chunk: the identifier, the size and
    the sixteen format bytes are read, the rest of the declared size is
    skipped, and the codec switch decides. *)
Lemma scanChunk_fmt_at (st : ScanState) (pre post : list byte) :
  scanChunk st (mkStream (chunkAt pre post) (Z.of_nat (List.length pre)))
  = match
      determineSampleFormat (Codec_of_tag (le16 t0 t1)) (le16 b0 b1)
        (le16 f0 f1) (le16 c0 c1)
        (mkStream (chunkAt pre post)
           (Z.of_nat (List.length pre) + 8
            + (fourcc z0 z1 z2 z3 + fourcc z0 z1 z2 z3 mod 2)))
    with
    | Ok (fb, f) =>
        Ok (inr {| bytesPerSample := snd fb;
                   members :=
                     Some {| fm_sampleFormat := fst fb;
                             fm_frameRate := to_int (fourcc r0 r1 r2 r3);
                             fm_channelCount := le16 c0 c1 |} |}, f)
    | Throw e => Throw e
    | Undefined w => Undefined w
    | OutOfFuel => OutOfFuel
    end.
Proof.
  set (c := chunkAt pre post). set (p := Z.of_nat (List.length pre)).
  pose proof (fourcc_range z0 z1 z2 z3) as Rz.
  assert (Hp : 0 <= p) by (subst p; lia).
  assert (R1 : read_uint32 (mkStream c p)
               = Ok (fourcc "f" "m" "t" " ", mkStream c (p + 4))).
  { apply (read_uint32_at c p pre "f" "m" "t" " "
             ([z0; z1; z2; z3]
                ++ [t0; t1; c0; c1; r0; r1; r2; r3; a0; a1; a2; a3;
                    f0; f1; b0; b1] ++ post)); reflexivity. }
  assert (R2 : read_uint32 (mkStream c (p + 4))
               = Ok (fourcc z0 z1 z2 z3, mkStream c (p + 4 + 4))).
  { apply (read_uint32_at c _ (pre ++ tag "fmt ") z0 z1 z2 z3
             ([t0; t1; c0; c1; r0; r1; r2; r3; a0; a1; a2; a3;
               f0; f1; b0; b1] ++ post)).
    - subst c. unfold fmtChunkAt. rewrite <- app_assoc. reflexivity.
    - rewrite !length_app. change (List.length (tag "fmt ")) with 4%nat.
      cbn [List.length]. subst p. lia. }
  assert (R3 : read_uint16 (mkStream c (p + 4 + 4))
               = Ok (le16 t0 t1, mkStream c (p + 4 + 4 + 2))).
  { apply (read_uint16_at c _ (pre ++ tag "fmt " ++ [z0; z1; z2; z3]) t0 t1
             ([c0; c1; r0; r1; r2; r3; a0; a1; a2; a3; f0; f1; b0; b1]
                ++ post)).
    - subst c. unfold fmtChunkAt. rewrite <- !app_assoc. reflexivity.
    - rewrite !length_app. change (List.length (tag "fmt ")) with 4%nat.
      cbn [List.length]. subst p. lia. }
  assert (R4 : read_uint16 (mkStream c (p + 4 + 4 + 2))
               = Ok (le16 c0 c1, mkStream c (p + 4 + 4 + 2 + 2))).
  { apply (read_uint16_at c _
             (pre ++ tag "fmt " ++ [z0; z1; z2; z3] ++ [t0; t1]) c0 c1
             ([r0; r1; r2; r3; a0; a1; a2; a3; f0; f1; b0; b1] ++ post)).
    - subst c. unfold fmtChunkAt. rewrite <- !app_assoc. reflexivity.
    - rewrite !length_app. change (List.length (tag "fmt ")) with 4%nat.
      cbn [List.length]. subst p. lia. }
  assert (R5 : read_uint32 (mkStream c (p + 4 + 4 + 2 + 2))
               = Ok (fourcc r0 r1 r2 r3, mkStream c (p + 4 + 4 + 2 + 2 + 4))).
  { apply (read_uint32_at c _
             (pre ++ tag "fmt " ++ [z0; z1; z2; z3] ++ [t0; t1; c0; c1])
             r0 r1 r2 r3
             ([a0; a1; a2; a3; f0; f1; b0; b1] ++ post)).
    - subst c. unfold fmtChunkAt. rewrite <- !app_assoc. reflexivity.
    - rewrite !length_app. change (List.length (tag "fmt ")) with 4%nat.
      cbn [List.length]. subst p. lia. }
  assert (R6 : read_uint32 (mkStream c (p + 4 + 4 + 2 + 2 + 4))
               = Ok (fourcc a0 a1 a2 a3,
                     mkStream c (p + 4 + 4 + 2 + 2 + 4 + 4))).
  { apply (read_uint32_at c _
             (pre ++ tag "fmt " ++ [z0; z1; z2; z3]
                ++ [t0; t1; c0; c1; r0; r1; r2; r3])
             a0 a1 a2 a3 ([f0; f1; b0; b1] ++ post)).
    - subst c. unfold fmtChunkAt. rewrite <- !app_assoc. reflexivity.
    - rewrite !length_app. change (List.length (tag "fmt ")) with 4%nat.
      cbn [List.length]. subst p. lia. }
  assert (R7 : read_uint16 (mkStream c (p + 4 + 4 + 2 + 2 + 4 + 4))
               = Ok (le16 f0 f1,
                     mkStream c (p + 4 + 4 + 2 + 2 + 4 + 4 + 2))).
  { apply (read_uint16_at c _
             (pre ++ tag "fmt " ++ [z0; z1; z2; z3]
                ++ [t0; t1; c0; c1; r0; r1; r2; r3; a0; a1; a2; a3])
             f0 f1 ([b0; b1] ++ post)).
    - subst c. unfold fmtChunkAt. rewrite <- !app_assoc. reflexivity.
    - rewrite !length_app. change (List.length (tag "fmt ")) with 4%nat.
      cbn [List.length]. subst p. lia. }
  assert (R8 : read_uint16 (mkStream c (p + 4 + 4 + 2 + 2 + 4 + 4 + 2))
               = Ok (le16 b0 b1,
                     mkStream c (p + 4 + 4 + 2 + 2 + 4 + 4 + 2 + 2))).
  { apply (read_uint16_at c _
             (pre ++ tag "fmt " ++ [z0; z1; z2; z3]
                ++ [t0; t1; c0; c1; r0; r1; r2; r3; a0; a1; a2; a3; f0; f1])
             b0 b1 post).
    - subst c. unfold fmtChunkAt. rewrite <- !app_assoc. reflexivity.
    - rewrite !length_app. change (List.length (tag "fmt ")) with 4%nat.
      cbn [List.length]. subst p. lia. }
  clearbody c p.
  unfold scanChunk. unfold bind at 1. rewrite R1.
  unfold bind at 1. rewrite R2.
  change (fourcc "f" "m" "t" " " =? fourcc "f" "m" "t" " ") with true.
  cbv iota. unfold bind at 1. unfold fmtChunk.
  unfold bind at 1. rewrite R3. unfold bind at 1. rewrite R4.
  unfold bind at 1. rewrite R5. unfold bind at 1. rewrite R6.
  unfold bind at 1. rewrite R7. unfold bind at 1. rewrite R8.
  unfold bind at 1. rewrite seek_past_fmt by lia.
  replace (p + 4 + 4 + 2 + 2 + 4 + 4 + 2 + 2 - 16
           + (fourcc z0 z1 z2 z3 + fourcc z0 z1 z2 z3 mod 2))
    with (p + 8 + (fourcc z0 z1 z2 z3 + fourcc z0 z1 z2 z3 mod 2)) by lia.
  unfold bind at 1.
  destruct (determineSampleFormat _ _ _ _ _) as [[fb f]| | |]; reflexivity.
Qed.

(** Construction on a file whose first chunk is the chunk: the header is
    read, whatever its size field, and the pass over the chunk follows. *)
Lemma ctor_fmt_first
    (fuel : nat) (h0 h1 h2 h3 : byte) (rest : list byte) :
  WaveFileReader_ctor (S fuel) (first h0 h1 h2 h3 rest)
  = match
      scanChunk initialScanState (mkStream (first h0 h1 h2 h3 rest) 12)
    with
    | Ok (inl this, _) => Ok this
    | Ok (inr st, f) =>
        match scanChunks fuel st f with
        | Ok (this, _) => Ok this
        | Throw e => Throw e
        | Undefined w => Undefined w
        | OutOfFuel => OutOfFuel
        end
    | Throw e => Throw e
    | Undefined w => Undefined w
    | OutOfFuel => OutOfFuel
    end.
Proof.
  set (c := first h0 h1 h2 h3 rest).
  assert (A : readHeader (open c) = Ok (tt, mkStream c 12)) by reflexivity.
  clearbody c. unfold WaveFileReader_ctor. unfold bind at 1. rewrite A.
  cbn [scanChunks]. unfold bind.
  destruct (scanChunk initialScanState (mkStream c 12))
    as [[[this|st] f]| | |]; reflexivity.
Qed.

Lemma scanChunk_fmt_first
    (h0 h1 h2 h3 : byte) (rest : list byte) :
  scanChunk initialScanState (mkStream (first h0 h1 h2 h3 rest) 12)
  = match
      determineSampleFormat (Codec_of_tag (le16 t0 t1)) (le16 b0 b1)
        (le16 f0 f1) (le16 c0 c1)
        (mkStream (first h0 h1 h2 h3 rest)
           (20 + (fourcc z0 z1 z2 z3 + fourcc z0 z1 z2 z3 mod 2)))
    with
    | Ok (fb, f) =>
        Ok (inr {| bytesPerSample := snd fb;
                   members :=
                     Some {| fm_sampleFormat := fst fb;
                             fm_frameRate := to_int (fourcc r0 r1 r2 r3);
                             fm_channelCount := le16 c0 c1 |} |}, f)
    | Throw e => Throw e
    | Undefined w => Undefined w
    | OutOfFuel => OutOfFuel
    end.
Proof.
  exact (scanChunk_fmt_at initialScanState
           (tag "RIFF" ++ [h0; h1; h2; h3] ++ tag "WAVE")%list rest).
Qed.

(** X6: whenever the scan loop comes to a fmt chunk, at any place in the
    file and declaring at most [INT_MAX - 1] bytes, whose codec tag is
    neither 1 (PCM) nor 3 (Float), the pass ends with the "only
    uncompressed formats" error, whatever the other fields of the chunk
    say and whatever follows it.  Construction ends with this error when
    the chunk is the first of the file, whatever the RIFF size field. *)
Theorem ctor_rejects_other_codecs :
  le16 t0 t1 <> 1 ->
  le16 t0 t1 <> 3 ->
  (forall (st : ScanState) (pre post : list byte),
      scanChunk st (mkStream (chunkAt pre post) (Z.of_nat (List.length pre)))
      = Throw (runtime_error
                 "Unsupported sample format. Only uncompressed formats are supported.")) /\
  (forall (fuel : nat) (h0 h1 h2 h3 : byte) (rest : list byte),
      WaveFileReader_ctor (S fuel) (first h0 h1 h2 h3 rest)
      = Throw (runtime_error
                 "Unsupported sample format. Only uncompressed formats are supported.")).
Proof.
  intros H1 H3.
  assert (D : forall f,
             determineSampleFormat (Codec_of_tag (le16 t0 t1)) (le16 b0 b1)
               (le16 f0 f1) (le16 c0 c1) f
             = Throw (runtime_error
                        "Unsupported sample format. Only uncompressed formats are supported.")).
  { intros f. unfold Codec_of_tag.
    apply Z.eqb_neq in H1. apply Z.eqb_neq in H3. rewrite H1, H3.
    reflexivity. }
  split.
  - intros st pre post. rewrite scanChunk_fmt_at, D. reflexivity.
  - intros fuel h0 h1 h2 h3 rest.
    rewrite ctor_fmt_first, scanChunk_fmt_first, D. reflexivity.
Qed.

(** X7: a Float fmt chunk, at any place in the file and declaring at most
    [INT_MAX - 1] bytes, is accepted at 32 bits per sample only: with any
    other depth, 64 included, the pass over it ends with an error that
    names the depth.  Construction ends with this error when the chunk is
    the first of the file, whatever the RIFF size field. *)
Theorem ctor_rejects_float_depths :
  le16 t0 t1 = 3 ->
  le16 b0 b1 <> 32 ->
  (forall (st : ScanState) (pre post : list byte),
      scanChunk st (mkStream (chunkAt pre post) (Z.of_nat (List.length pre)))
      = Throw (runtime_error
                 ("Unsupported sample format: " ++ decimal (le16 b0 b1)
                  ++ "-bit floating-point samples."))) /\
  (forall (fuel : nat) (h0 h1 h2 h3 : byte) (rest : list byte),
      WaveFileReader_ctor (S fuel) (first h0 h1 h2 h3 rest)
      = Throw (runtime_error
                 ("Unsupported sample format: " ++ decimal (le16 b0 b1)
                  ++ "-bit floating-point samples."))).
Proof.
  intros Ht Hb.
  assert (D : forall f,
             determineSampleFormat (Codec_of_tag (le16 t0 t1)) (le16 b0 b1)
               (le16 f0 f1) (le16 c0 c1) f
             = Throw (runtime_error
                        ("Unsupported sample format: " ++ decimal (le16 b0 b1)
                         ++ "-bit floating-point samples."))).
  { intros f. unfold Codec_of_tag. rewrite Ht.
    cbn [Z.eqb Pos.eqb determineSampleFormat].
    apply Z.eqb_neq in Hb. rewrite Hb. reflexivity. }
  split.
  - intros st pre post. rewrite scanChunk_fmt_at, D. reflexivity.
  - intros fuel h0 h1 h2 h3 rest.
    rewrite ctor_fmt_first, scanChunk_fmt_first, D. reflexivity.
Qed.

(** X8: a PCM fmt chunk, at any place in the file and declaring at most
    [INT_MAX - 1] bytes, of at most 24 bits that declares zero channels
    makes the frame-size test of line 81 divide by zero; no error is
    thrown.  Construction ends this way, with no stream, when the chunk is
    the first of the file, whatever the RIFF size field. *)
Theorem ctor_pcm_zero_channels :
  le16 t0 t1 = 1 ->
  le16 b0 b1 <= 24 ->
  le16 c0 c1 = 0 ->
  (forall (st : ScanState) (pre post : list byte),
      scanChunk st (mkStream (chunkAt pre post) (Z.of_nat (List.length pre)))
      = Undefined "integer division by zero") /\
  (forall (fuel : nat) (h0 h1 h2 h3 : byte) (rest : list byte),
      WaveFileReader_ctor (S fuel) (first h0 h1 h2 h3 rest)
      = Undefined "integer division by zero").
Proof.
  intros Ht Hb Hc.
  assert (D : forall f,
             determineSampleFormat (Codec_of_tag (le16 t0 t1)) (le16 b0 b1)
               (le16 f0 f1) (le16 c0 c1) f
             = Undefined "integer division by zero").
  { intros f. unfold Codec_of_tag. rewrite Ht, Hc.
    cbn [Z.eqb Pos.eqb determineSampleFormat].
    unfold bind, pcmSampleFormat.
    destruct (le16 b0 b1 =? 8); [reflexivity|].
    destruct (le16 b0 b1 <=? 16); [reflexivity|].
    destruct (Z.leb_spec (le16 b0 b1) 24); [reflexivity|lia]. }
  split.
  - intros st pre post. rewrite scanChunk_fmt_at, D. reflexivity.
  - intros fuel h0 h1 h2 h3 rest.
    rewrite ctor_fmt_first, scanChunk_fmt_first, D. reflexivity.
Qed.

(** X9: a PCM fmt chunk, at any place in the file and declaring at most
    [INT_MAX - 1] bytes, of at most 24 bits whose frame size divided by
    its channel count (an [int] division) is not the sample size chosen
    for the depth ends the pass with "Unsupported sample organization.".
    Construction ends with this error when the chunk is the first of the
    file, whatever the RIFF size field. *)
Theorem ctor_pcm_frame_size_refused :
  le16 t0 t1 = 1 ->
  le16 b0 b1 <= 24 ->
  le16 c0 c1 <> 0 ->
  pcmBytesPerSample (le16 b0 b1) <> Z.quot (le16 f0 f1) (le16 c0 c1) ->
  (forall (st : ScanState) (pre post : list byte),
      scanChunk st (mkStream (chunkAt pre post) (Z.of_nat (List.length pre)))
      = Throw (runtime_error "Unsupported sample organization.")) /\
  (forall (fuel : nat) (h0 h1 h2 h3 : byte) (rest : list byte),
      WaveFileReader_ctor (S fuel) (first h0 h1 h2 h3 rest)
      = Throw (runtime_error "Unsupported sample organization.")).
Proof.
  intros Ht Hb Hc Hq.
  assert (D : forall f,
             determineSampleFormat (Codec_of_tag (le16 t0 t1)) (le16 b0 b1)
               (le16 f0 f1) (le16 c0 c1) f
             = Throw (runtime_error "Unsupported sample organization.")).
  { intros f. unfold Codec_of_tag. rewrite Ht.
    cbn [Z.eqb Pos.eqb determineSampleFormat].
    unfold pcmBytesPerSample in Hq. unfold bind, pcmSampleFormat.
    apply Z.eqb_neq in Hc.
    destruct (le16 b0 b1 =? 8);
      [|destruct (le16 b0 b1 <=? 16);
        [|destruct (Z.leb_spec (le16 b0 b1) 24); [|lia]]];
      unfold ret; rewrite Hc; cbn [snd];
      apply Z.eqb_neq in Hq; rewrite Hq; reflexivity. }
  split.
  - intros st pre post. rewrite scanChunk_fmt_at, D. reflexivity.
  - intros fuel h0 h1 h2 h3 rest.
    rewrite ctor_fmt_first, scanChunk_fmt_first, D. reflexivity.
Qed.

End FmtChunk.

(** An ADPCM chunk (codec tag 2) in a well-formed file of 36 bytes. *)
Lemma ctor_rejects_other_codecs_witness :
  fourcc x10 x00 x00 x00 <= 2147483646 /\
  le16 x02 x00 <> 1 /\ le16 x02 x00 <> 3 /\
  WaveFileReader_ctor 1
    (tag "RIFF" ++ le_bytes 4 28 ++ tag "WAVE" ++ fmtChunkBytes 2 1 8000 1 8)
  = Throw (runtime_error
             "Unsupported sample format. Only uncompressed formats are supported.").
Proof.
  assert (H0 : fourcc x10 x00 x00 x00 <= 2147483646)
    by (vm_compute; discriminate).
  assert (H1 : le16 x02 x00 <> 1) by discriminate.
  assert (H3 : le16 x02 x00 <> 3) by discriminate.
  split; [exact H0|]. split; [exact H1|]. split; [exact H3|].
  exact (proj2 (ctor_rejects_other_codecs x10 x00 x00 x00 x02 x00 x01 x00
                  x40 x1f x00 x00 x40 x1f x00 x00 x01 x00 x08 x00 H0 H1 H3)
           0%nat x1c x00 x00 x00 []).
Defined.

(** A Float chunk of 64 bits per sample in a well-formed file. *)
Lemma ctor_rejects_float_depths_witness :
  fourcc x10 x00 x00 x00 <= 2147483646 /\
  le16 x03 x00 = 3 /\ le16 x40 x00 <> 32 /\
  WaveFileReader_ctor 1
    (tag "RIFF" ++ le_bytes 4 28 ++ tag "WAVE" ++ fmtChunkBytes 3 1 8000 8 64)
  = Throw (runtime_error
             "Unsupported sample format: 64-bit floating-point samples.").
Proof.
  assert (H0 : fourcc x10 x00 x00 x00 <= 2147483646)
    by (vm_compute; discriminate).
  assert (H1 : le16 x03 x00 = 3) by reflexivity.
  assert (H2 : le16 x40 x00 <> 32) by discriminate.
  split; [exact H0|]. split; [exact H1|]. split; [exact H2|].
  exact (proj2 (ctor_rejects_float_depths x10 x00 x00 x00 x03 x00 x01 x00
                  x40 x1f x00 x00 x00 xfa x00 x00 x08 x00 x40 x00 H0 H1 H2)
           0%nat x1c x00 x00 x00 []).
Defined.

(** A 16-bit PCM chunk with a channel count of zero in a well-formed
    file. *)
Lemma ctor_pcm_zero_channels_witness :
  fourcc x10 x00 x00 x00 <= 2147483646 /\
  le16 x01 x00 = 1 /\ le16 x10 x00 <= 24 /\ le16 x00 x00 = 0 /\
  WaveFileReader_ctor 1
    (tag "RIFF" ++ le_bytes 4 28 ++ tag "WAVE" ++ fmtChunkBytes 1 0 8000 2 16)
  = Undefined "integer division by zero".
Proof.
  assert (H0 : fourcc x10 x00 x00 x00 <= 2147483646)
    by (vm_compute; discriminate).
  assert (H1 : le16 x01 x00 = 1) by reflexivity.
  assert (H2 : le16 x10 x00 <= 24) by (vm_compute; discriminate).
  assert (H3 : le16 x00 x00 = 0) by reflexivity.
  split; [exact H0|]. split; [exact H1|]. split; [exact H2|].
  split; [exact H3|].
  exact (proj2 (ctor_pcm_zero_channels x10 x00 x00 x00 x01 x00 x00 x00
                  x40 x1f x00 x00 x80 x3e x00 x00 x02 x00 x10 x00
                  H0 H1 H2 H3)
           0%nat x1c x00 x00 x00 []).
Defined.

(** A 16-bit mono PCM chunk that declares 1-byte frames in a well-formed
    file. *)
Lemma ctor_pcm_frame_size_refused_witness :
  fourcc x10 x00 x00 x00 <= 2147483646 /\
  le16 x01 x00 = 1 /\ le16 x10 x00 <= 24 /\ le16 x01 x00 <> 0 /\
  pcmBytesPerSample (le16 x10 x00) <> Z.quot (le16 x01 x00) (le16 x01 x00) /\
  WaveFileReader_ctor 1
    (tag "RIFF" ++ le_bytes 4 28 ++ tag "WAVE" ++ fmtChunkBytes 1 1 8000 1 16)
  = Throw (runtime_error "Unsupported sample organization.").
Proof.
  assert (H0 : fourcc x10 x00 x00 x00 <= 2147483646)
    by (vm_compute; discriminate).
  assert (H1 : le16 x01 x00 = 1) by reflexivity.
  assert (H2 : le16 x10 x00 <= 24) by (vm_compute; discriminate).
  assert (H3 : le16 x01 x00 <> 0) by discriminate.
  assert (H4 : pcmBytesPerSample (le16 x10 x00)
               <> Z.quot (le16 x01 x00) (le16 x01 x00)) by discriminate.
  split; [exact H0|]. split; [exact H1|]. split; [exact H2|].
  split; [exact H3|]. split; [exact H4|].
  exact (proj2 (ctor_pcm_frame_size_refused x10 x00 x00 x00 x01 x00 x01 x00
                  x40 x1f x00 x00 x40 x1f x00 x00 x01 x00 x10 x00
                  H0 H1 H2 H3 H4)
           0%nat x1c x00 x00 x00 []).
Defined.

(* ================================================================= *)
(** ** Where the scan leaves the cursor *)

Lemma seekg_cur_result (off : Z) (f f' : ifstream) (u : unit) :
  seekg_cur off f = Ok (u, f') ->
  content f' = content f /\ tellg f' = tellg f + off /\ 0 <= tellg f'.
Proof.
  unfold seekg_cur.
  destruct (Z.ltb_spec (tellg f + off) 0) as [|Hpos]; [discriminate|].
  intros E. inversion E; subst. cbn. repeat split; lia.
Qed.

(** X10: a fmt chunk that is processed without an error leaves the bytes
    of the file alone and the cursor at the declared size, rounded up to
    even, past the start of the chunk's payload: 16 bytes are read and the
    rest is skipped, so an extension (a declared size of 18 or 40) is
    stepped over; with a declared size below 16 the cursor moves back. *)
Theorem fmtChunk_cursor
    (chunkSize : Z) (f f' : ifstream) (st : ScanState) :
  fmtChunk chunkSize f = Ok (st, f') ->
  0 <= chunkSize <= 2147483646 ->
  content f' = content f /\
  tellg f' = tellg f + (chunkSize + chunkSize mod 2) /\
  0 <= tellg f.
Proof.
  unfold fmtChunk. intros H Hsize.
  unfold bind at 1 in H.
  destruct (read_uint16 f) as [[tagv f1]| | |] eqn:R1; try discriminate.
  unfold bind at 1 in H.
  destruct (read_uint16 f1) as [[channels f2]| | |] eqn:R2; try discriminate.
  unfold bind at 1 in H.
  destruct (read_uint32 f2) as [[rate f3]| | |] eqn:R3; try discriminate.
  unfold bind at 1 in H.
  destruct (read_uint32 f3) as [[byteRate f4]| | |] eqn:R4; try discriminate.
  unfold bind at 1 in H.
  destruct (read_uint16 f4) as [[frameSize f5]| | |] eqn:R5; try discriminate.
  unfold bind at 1 in H.
  destruct (read_uint16 f5) as [[bits f6]| | |] eqn:R6; try discriminate.
  unfold bind at 1 in H.
  destruct (seekg_cur _ f6) as [[u f7]| | |] eqn:S7; try discriminate.
  unfold bind at 1 in H.
  destruct (determineSampleFormat _ _ _ _ f7) as [[fb f8]| | |] eqn:D;
    try discriminate.
  unfold ret in H. inversion H; subst. clear H.
  apply determineSampleFormat_stream in D. subst f7.
  destruct (read_le_result 2 _ _ _ R1) as (_ & C1 & T1 & P1).
  destruct (read_le_result 2 _ _ _ R2) as (_ & C2 & T2 & _).
  destruct (read_le_result 4 _ _ _ R3) as (_ & C3 & T3 & _).
  destruct (read_le_result 4 _ _ _ R4) as (_ & C4 & T4 & _).
  destruct (read_le_result 2 _ _ _ R5) as (_ & C5 & T5 & _).
  destruct (read_le_result 2 _ _ _ R6) as (_ & C6 & T6 & _).
  destruct (seekg_cur_result _ _ _ _ S7) as (C7 & T7 & _).
  specialize (P1 ltac:(discriminate)).
  pose proof (Z.mod_pos_bound chunkSize 2 ltac:(lia)) as B.
  rewrite roundToEven_small, to_int_small in T7 by lia.
  repeat split; [congruence|lia|exact P1].
Qed.

Lemma fmtChunk_cursor_witness :
  fmtChunk 18 (mkStream fmt18Payload 0)
  = Ok ({| bytesPerSample := 1;
           members := Some {| fm_sampleFormat := UInt8;
                              fm_frameRate := 8000;
                              fm_channelCount := 1 |} |},
        mkStream fmt18Payload 18) /\
  0 <= 18 <= 2147483646 /\
  tellg (mkStream fmt18Payload 18) = tellg (mkStream fmt18Payload 0)
                                     + (18 + 18 mod 2).
Proof.
  assert (H1 : fmtChunk 18 (mkStream fmt18Payload 0)
               = Ok ({| bytesPerSample := 1;
                        members := Some {| fm_sampleFormat := UInt8;
                                           fm_frameRate := 8000;
                                           fm_channelCount := 1 |} |},
                     mkStream fmt18Payload 18))
    by (vm_compute; reflexivity).
  assert (H2 : 0 <= 18 <= 2147483646) by lia.
  split; [exact H1|]. split; [exact H2|].
  exact (proj1 (proj2 (fmtChunk_cursor 18 _ _ _ H1 H2))).
Defined.

Lemma fmtChunk_content
    (chunkSize : Z) (f f' : ifstream) (st : ScanState) :
  fmtChunk chunkSize f = Ok (st, f') -> content f' = content f.
Proof.
  unfold fmtChunk. intros H.
  unfold bind at 1 in H.
  destruct (read_uint16 f) as [[tagv f1]| | |] eqn:R1; try discriminate.
  unfold bind at 1 in H.
  destruct (read_uint16 f1) as [[channels f2]| | |] eqn:R2; try discriminate.
  unfold bind at 1 in H.
  destruct (read_uint32 f2) as [[rate f3]| | |] eqn:R3; try discriminate.
  unfold bind at 1 in H.
  destruct (read_uint32 f3) as [[byteRate f4]| | |] eqn:R4; try discriminate.
  unfold bind at 1 in H.
  destruct (read_uint16 f4) as [[frameSize f5]| | |] eqn:R5; try discriminate.
  unfold bind at 1 in H.
  destruct (read_uint16 f5) as [[bits f6]| | |] eqn:R6; try discriminate.
  unfold bind at 1 in H.
  destruct (seekg_cur _ f6) as [[u f7]| | |] eqn:S7; try discriminate.
  unfold bind at 1 in H.
  destruct (determineSampleFormat _ _ _ _ f7) as [[fb f8]| | |] eqn:D;
    try discriminate.
  unfold ret in H. inversion H; subst. clear H.
  apply determineSampleFormat_stream in D. subst f7.
  destruct (read_le_result 2 _ _ _ R1) as (_ & C1 & _).
  destruct (read_le_result 2 _ _ _ R2) as (_ & C2 & _).
  destruct (read_le_result 4 _ _ _ R3) as (_ & C3 & _).
  destruct (read_le_result 4 _ _ _ R4) as (_ & C4 & _).
  destruct (read_le_result 2 _ _ _ R5) as (_ & C5 & _).
  destruct (read_le_result 2 _ _ _ R6) as (_ & C6 & _).
  destruct (seekg_cur_result _ _ _ _ S7) as (C7 & _).
  congruence.
Qed.

Lemma four_bytes_are_tag (l : list byte) (c0 c1 c2 c3 : byte) :
  List.length l = 4%nat ->
  le_value (map byte_val l) = fourcc c0 c1 c2 c3 ->
  l = [c0; c1; c2; c3].
Proof.
  intros Hlen E.
  destruct l as [|x0 [|x1 [|x2 [|x3 [|x4 l]]]]]; try discriminate.
  apply (fourcc_inj x0 x1 x2 x3 c0 c1 c2 c3). exact E.
Qed.

Lemma scanChunks_cursor (fuel : nat) :
  forall (st : ScanState) (f f' : ifstream) (this : WaveFileReader),
    scanInvariant st ->
    scanChunks fuel st f = Ok (this, f') ->
    content (file this) = content f /\
    8 <= tellg (file this) <= Z.of_nat (List.length (content f)) /\
    firstn 4 (skipn (Z.to_nat (tellg (file this) - 8)) (content f))
    = tag "data" /\
    remainingSamples this
    = to_int
        (Z.quot
           (to_int
              (le_value
                 (map byte_val
                    (firstn 4 (skipn (Z.to_nat (tellg (file this) - 4))
                                     (content f))))))
           (sampleBytes (sampleFormat this))).
Proof.
  induction fuel as [|fuel IH]; intros st f f' this Hinv; [discriminate|].
  cbn [scanChunks]. unfold bind at 1. unfold scanChunk.
  unfold bind at 1.
  destruct (read_uint32 f) as [[chunkId f1]| | |] eqn:R1; try discriminate.
  unfold bind at 1.
  destruct (read_uint32 f1) as [[size f2]| | |] eqn:R2; try discriminate.
  destruct (read_le_inversion 4 _ _ _ ltac:(discriminate) R1)
    as (P1 & L1 & V1 & F1).
  destruct (read_le_inversion 4 _ _ _ ltac:(discriminate) R2)
    as (P2 & L2 & V2 & F2).
  subst f1. cbn [content tellg] in *. subst f2.
  change (Z.of_nat 4) with 4 in *.
  destruct (Z.eqb_spec chunkId (fourcc "f" "m" "t" " ")) as [Efmt|_].
  - unfold bind at 1.
    destruct (fmtChunk _ _) as [[st' f3]| | |] eqn:F; try discriminate.
    unfold ret at 1. intros H.
    pose proof (fmtChunk_content _ _ _ _ F) as C3. cbn [content] in C3.
    apply fmtChunk_result in F. destruct F as (Hinv' & _).
    specialize (IH st' f3 f' this Hinv' H). rewrite C3 in IH. exact IH.
  - destruct (Z.eqb_spec chunkId (fourcc "d" "a" "t" "a")) as [Edata|_].
    + unfold bind at 1.
      destruct (dataChunk _ st _) as [[r f3]| | |] eqn:D; try discriminate.
      unfold ret. intros H. inversion H; subst r f3. clear H.
      destruct (dataChunk_result _ _ _ _ _ Hinv D) as (Hf & _ & Hrem & _).
      rewrite Hf. cbn [content tellg].
      split; [reflexivity|]. split; [lia|]. split.
      * replace (Z.to_nat (tellg f + 4 + 4 - 8)) with (Z.to_nat (tellg f))
          by lia.
        apply four_bytes_are_tag;
          [|rewrite <- V1, Edata; reflexivity].
        rewrite length_firstn, length_skipn. lia.
      * rewrite Hrem.
        replace (Z.to_nat (tellg f + 4 + 4 - 4)) with (Z.to_nat (tellg f + 4))
          by lia.
        rewrite <- V2. reflexivity.
    + unfold bind at 1. unfold skipChunk.
      destruct (seekg_cur _ _) as [[u f3]| | |] eqn:S; try discriminate.
      unfold ret at 1. intros H.
      destruct (seekg_cur_result _ _ _ _ S) as (C3 & _).
      cbn [content] in C3.
      specialize (IH st f3 f' this Hinv H). rewrite C3 in IH. exact IH.
Qed.

(** X11: construction leaves the cursor on the first payload byte of a
    data chunk.  The stream's file holds the bytes of the input, the cursor
    is inside it, the eight bytes before the cursor are "data" and the size
    field, and [remainingSamples] is that size, read as an [int], divided
    by the size of one sample. *)
Theorem ctor_cursor_at_data
    (fuel : nat) (bytes : list byte) (this : WaveFileReader) :
  WaveFileReader_ctor fuel bytes = Ok this ->
  content (file this) = bytes /\
  8 <= tellg (file this) <= Z.of_nat (List.length bytes) /\
  firstn 4 (skipn (Z.to_nat (tellg (file this) - 8)) bytes) = tag "data" /\
  remainingSamples this
  = to_int
      (Z.quot
         (to_int
            (le_value
               (map byte_val
                  (firstn 4 (skipn (Z.to_nat (tellg (file this) - 4))
                                   bytes)))))
         (sampleBytes (sampleFormat this))).
Proof.
  unfold WaveFileReader_ctor. unfold bind at 1.
  destruct (readHeader (open bytes)) as [[u f1]| | |] eqn:Hh; try discriminate.
  destruct (scanChunks fuel initialScanState f1) as [[r f2]| | |] eqn:S;
    try discriminate.
  intros H. inversion H; subst r. clear H.
  assert (C1 : content f1 = bytes).
  { unfold readHeader in Hh. unfold bind at 1 in Hh.
    destruct (read_uint32 (open bytes)) as [[v1 g1]| | |] eqn:R1;
      try discriminate.
    destruct (negb (v1 =? fourcc "R" "I" "F" "F")); [discriminate|].
    unfold bind at 1 in Hh.
    destruct (read_uint32 g1) as [[v2 g2]| | |] eqn:R2; try discriminate.
    unfold bind at 1 in Hh.
    destruct (read_uint32 g2) as [[v3 g3]| | |] eqn:R3; try discriminate.
    destruct (negb (v3 =? fourcc "W" "A" "V" "E")); [discriminate|].
    unfold ret in Hh. inversion Hh; subst.
    destruct (read_le_result 4 _ _ _ R1) as (_ & A1 & _).
    destruct (read_le_result 4 _ _ _ R2) as (_ & A2 & _).
    destruct (read_le_result 4 _ _ _ R3) as (_ & A3 & _).
    cbn [open content] in A1. congruence. }
  apply scanChunks_cursor in S; [|reflexivity].
  rewrite C1 in S. exact S.
Qed.

Lemma ctor_cursor_at_data_witness :
  WaveFileReader_ctor 2 stereo16Odd = Ok stereo16OddStream /\
  tellg (file stereo16OddStream) = 44 /\
  firstn 4 (skipn 36 stereo16Odd) = tag "data" /\
  remainingSamples stereo16OddStream = to_int (Z.quot (to_int 6) 2).
Proof.
  assert (H : WaveFileReader_ctor 2 stereo16Odd = Ok stereo16OddStream)
    by (vm_compute; reflexivity).
  destruct (ctor_cursor_at_data 2 stereo16Odd stereo16OddStream H)
    as (_ & _ & Hd & Hr).
  split; [exact H|]. split; [reflexivity|]. split; [exact Hd|exact Hr].
Defined.

(* ================================================================= *)
(** ** 8-bit samples *)

Lemma strictlyIncreasing_nth (l : list float) :
  strictlyIncreasing l = true ->
  forall (i j : nat) (d : float),
    (i < j < List.length l)%nat ->
    SFltb (nth i l d) (nth j l d) = true.
Proof.
  induction l as [|x l IH]; intros H i j d Hij; [cbn in Hij; lia|].
  cbn [strictlyIncreasing] in H. apply andb_true_iff in H.
  destruct H as [Hx Hl]. cbn [List.length] in Hij.
  destruct j as [|j]; [lia|]. destruct i as [|i]; cbn [nth].
  - rewrite forallb_forall in Hx. apply Hx. apply nth_In. lia.
  - apply IH; [exact Hl|lia].
Qed.

Lemma uint8Samples_nth (k : nat) (d : float) :
  (k < 256)%nat ->
  nth k uint8Samples d = toNormalizedFloat (Z.of_nat k) 0 UINT8_MAX.
Proof.
  intros H. unfold uint8Samples.
  rewrite (nth_indep _ d
             (toNormalizedFloat (Z.of_nat 0) 0 UINT8_MAX))
    by (rewrite length_map, length_seq; exact H).
  rewrite (map_nth (fun k => toNormalizedFloat (Z.of_nat k) 0 UINT8_MAX)).
  rewrite seq_nth by exact H. reflexivity.
Qed.

Lemma decodeSample_UInt8_at
    (c : list byte) (p : Z) (pre : list byte) (b : byte) (post : list byte) :
  c = (pre ++ [b] ++ post)%list ->
  p = Z.of_nat (List.length pre) ->
  decodeSample UInt8 (mkStream c p)
  = Ok (toNormalizedFloat (byte_val b) 0 UINT8_MAX, mkStream c (p + 1)).
Proof.
  intros Hc Hp. pose proof (read_le_at c p pre [b] post Hc Hp) as R.
  cbn [List.length map le_value] in R.
  unfold decodeSample, read_uint8, bind. rewrite R. unfold ret.
  replace (byte_val b + 256 * 0) with (byte_val b) by lia. reflexivity.
Qed.

Lemma uint8Samples_checked :
  forallb inUnitRange uint8Samples && strictlyIncreasing uint8Samples = true.
Proof. vm_compute. reflexivity. Qed.

(** X12: for every stream of format UInt8 with samples left, at every
    cursor of every file, [getNextSample] delivers [toNormalizedFloat] of
    the byte at the cursor and moves on by one byte.  For every byte the
    sample lies in the closed range from -1.0 to 1.0, and a larger byte
    always gives a strictly larger sample, so no two of the 256 values
    share a sample. *)
Theorem uint8_samples_in_range_and_ordered
    (this : WaveFileReader) (sample : float)
    (pre : list byte) (a b : byte) (post : list byte) :
  sampleFormat this = UInt8 ->
  remainingSamples this <> 0 ->
  file this = mkStream (pre ++ [a] ++ post) (Z.of_nat (List.length pre)) ->
  getNextSample this sample
  = Returned true (toNormalizedFloat (byte_val a) 0 UINT8_MAX)
      (withFile this
         (mkStream (pre ++ [a] ++ post) (Z.of_nat (List.length pre) + 1))
         (to_int (remainingSamples this - 1))) /\
  inUnitRange (toNormalizedFloat (byte_val a) 0 UINT8_MAX) = true /\
  (byte_val a < byte_val b ->
   SFltb (toNormalizedFloat (byte_val a) 0 UINT8_MAX)
         (toNormalizedFloat (byte_val b) 0 UINT8_MAX) = true).
Proof.
  intros Hfmt Hrem Hfile.
  pose proof uint8Samples_checked as C. apply andb_true_iff in C.
  destruct C as [Crange Cinc].
  pose proof (byte_val_range a) as Ra. pose proof (byte_val_range b) as Rb.
  split.
  { apply getNextSample_decodes; [exact Hrem|]. rewrite Hfmt, Hfile.
    apply (decodeSample_UInt8_at _ _ pre a post); reflexivity. }
  split.
  - rewrite forallb_forall in Crange.
    rewrite <- (Z2Nat.id (byte_val a)) by lia.
    rewrite <- (uint8Samples_nth (Z.to_nat (byte_val a)) one) by lia.
    apply Crange. apply nth_In. change (List.length uint8Samples) with 256%nat.
    lia.
  - intros Hlt.
    rewrite <- (Z2Nat.id (byte_val a)), <- (Z2Nat.id (byte_val b)) by lia.
    rewrite <- (uint8Samples_nth (Z.to_nat (byte_val a)) one) by lia.
    rewrite <- (uint8Samples_nth (Z.to_nat (byte_val b)) one) by lia.
    apply strictlyIncreasing_nth; [exact Cinc|].
    change (List.length uint8Samples) with 256%nat. lia.
Qed.

(** An 8-bit stream with its cursor on the byte 7F, one byte into the
    file. *)
Lemma uint8_samples_in_range_and_ordered_witness :
  sampleFormat uint8Stream = UInt8 /\
  remainingSamples uint8Stream <> 0 /\
  file uint8Stream
  = mkStream ([x11] ++ [x7f] ++ [x80]) (Z.of_nat (List.length [x11])) /\
  byte_val x7f < byte_val x80 /\
  getNextSample uint8Stream half
  = Returned true (toNormalizedFloat 127 0 UINT8_MAX)
      (withFile uint8Stream (mkStream [x11; x7f; x80] 2) 1) /\
  SFltb (toNormalizedFloat (byte_val x7f) 0 UINT8_MAX)
        (toNormalizedFloat (byte_val x80) 0 UINT8_MAX) = true.
Proof.
  assert (H1 : sampleFormat uint8Stream = UInt8) by reflexivity.
  assert (H2 : remainingSamples uint8Stream <> 0) by discriminate.
  assert (H3 : file uint8Stream
               = mkStream ([x11] ++ [x7f] ++ [x80])
                          (Z.of_nat (List.length [x11]))) by reflexivity.
  assert (H4 : byte_val x7f < byte_val x80) by (vm_compute; reflexivity).
  split; [exact H1|]. split; [exact H2|]. split; [exact H3|].
  split; [exact H4|].
  destruct (uint8_samples_in_range_and_ordered uint8Stream half
              [x11] x7f x80 [x80] H1 H2 H3) as (G & _ & Ho).
  split; [exact G|exact (Ho H4)].
Defined.

(* ================================================================= *)
(** ** An 8-bit mono file, end to end *)

Lemma pull_uint8 (payload : list byte) :
  forall (pre post : list byte) (this : WaveFileReader) (sample : float),
    sampleFormat this = UInt8 ->
    file this
    = mkStream (pre ++ payload ++ post) (Z.of_nat (List.length pre)) ->
    remainingSamples this = Z.of_nat (List.length payload) ->
    Z.of_nat (List.length payload) < 2147483648 ->
    pullSamples (List.length payload) this sample
    = map (fun b => toNormalizedFloat (byte_val b) 0 UINT8_MAX) payload /\
    successfulCalls (S (List.length payload)) this sample
    = Some (List.length payload).
Proof.
  induction payload as [|b bs IH];
    intros pre post this sample Hfmt Hfile Hrem Hint.
  - cbn [List.length pullSamples map successfulCalls].
    unfold getNextSample. rewrite Hrem. split; reflexivity.
  - cbn [List.length] in Hrem, Hint.
    set (c := (pre ++ (b :: bs) ++ post)%list) in *.
    set (this' := withFile this (mkStream c (Z.of_nat (List.length pre) + 1))
                    (Z.of_nat (List.length bs))).
    assert (G : getNextSample this sample
                = Returned true (toNormalizedFloat (byte_val b) 0 UINT8_MAX)
                    this').
    { unfold getNextSample.
      destruct (Z.eqb_spec (remainingSamples this) 0); [lia|].
      rewrite Hfmt, Hfile.
      rewrite (decodeSample_UInt8_at c _ pre b (bs ++ post))
        by reflexivity.
      rewrite Hrem, to_int_small by lia. subst this'. do 2 f_equal. lia. }
    destruct (IH (pre ++ [b])%list post this'
                (toNormalizedFloat (byte_val b) 0 UINT8_MAX))
      as [IH1 IH2].
    + exact Hfmt.
    + subst this' c. cbn [withFile file]. f_equal.
      * rewrite <- app_assoc. reflexivity.
      * rewrite length_app. cbn [List.length]. lia.
    + reflexivity.
    + lia.
    + split.
      * cbn [List.length pullSamples map]. rewrite G, IH1. reflexivity.
      * change (successfulCalls (S (List.length (b :: bs))) this sample)
          with (match getNextSample this sample with
                | Returned false _ _ => Some O
                | Returned true s t =>
                    option_map S (successfulCalls (S (List.length bs)) t s)
                | Raised _ _ => None
                end).
        rewrite G, IH2. reflexivity.
Qed.

(** X13: an 8-bit mono PCM file: "RIFF", any size field, "WAVE", a
    16-byte fmt chunk and the data chunk, for every frame rate and byte
    rate, every payload shorter than 2^31 bytes and whatever comes after
    it.  Construction succeeds; the channel count is 1, the frame rate is
    the declared one, the frame count is the number of payload bytes; the
    calls of [getNextSample] deliver one sample per payload byte, in file
    order, each [toNormalizedFloat] of its byte, and then "no more". *)
Theorem mono8_end_to_end
    (fuel : nat) (h0 h1 h2 h3 r0 r1 r2 r3 a0 a1 a2 a3 s0 s1 s2 s3 : byte)
    (payload trailing : list byte) (sample : float) :
  fourcc s0 s1 s2 s3 = Z.of_nat (List.length payload) ->
  Z.of_nat (List.length payload) < 2147483648 ->
  exists this,
    WaveFileReader_ctor (S (S fuel))
      (fmtFirst h0 h1 h2 h3
                x10 x00 x00 x00 x01 x00 x01 x00 r0 r1 r2 r3 a0 a1 a2 a3
                x01 x00 x08 x00
                (tag "data" ++ [s0; s1; s2; s3] ++ payload ++ trailing))
    = Ok this /\
    getChannelCount this = 1 /\
    getFrameRate this = to_int (fourcc r0 r1 r2 r3) /\
    getFrameCount this = Z.of_nat (List.length payload) /\
    pullSamples (List.length payload) this sample
    = map (fun b => toNormalizedFloat (byte_val b) 0 UINT8_MAX) payload /\
    successfulCalls (S (List.length payload)) this sample
    = Some (List.length payload).
Proof.
  intros Hsize Hint.
  set (c := fmtFirst h0 h1 h2 h3
              x10 x00 x00 x00 x01 x00 x01 x00 r0 r1 r2 r3 a0 a1 a2 a3
              x01 x00 x08 x00
              (tag "data" ++ [s0; s1; s2; s3] ++ payload ++ trailing)).
  set (n := Z.of_nat (List.length payload)) in *.
  exists {| file := mkStream c 44;
            sampleFormat := UInt8;
            frameRate := to_int (fourcc r0 r1 r2 r3);
            frameCount := n;
            channelCount := 1;
            remainingSamples := n |}.
  split.
  - unfold c. rewrite ctor_fmt_first.
    rewrite scanChunk_fmt_first by (vm_compute; discriminate).
    fold c.
    assert (S1 :
              scanChunks (S fuel)
                {| bytesPerSample := 1;
                   members :=
                     Some {| fm_sampleFormat := UInt8;
                             fm_frameRate := to_int (fourcc r0 r1 r2 r3);
                             fm_channelCount := le16 x01 x00 |} |}
                (mkStream c 36)
              = Ok ({| file := mkStream c 44;
                       sampleFormat := UInt8;
                       frameRate := to_int (fourcc r0 r1 r2 r3);
                       frameCount :=
                         to_int
                           (Z.quot
                              (to_int
                                 (Z.quot (to_int (fourcc s0 s1 s2 s3)) 1))
                              1);
                       channelCount := 1;
                       remainingSamples :=
                         to_int (Z.quot (to_int (fourcc s0 s1 s2 s3)) 1) |},
                    mkStream c 44)) by reflexivity.
    change (determineSampleFormat (Codec_of_tag (le16 x01 x00))
              (le16 x08 x00) (le16 x01 x00) (le16 x01 x00)
              (mkStream c (20 + (fourcc x10 x00 x00 x00
                                 + fourcc x10 x00 x00 x00 mod 2))))
      with (@Ok ((SampleFormat * Z) * ifstream) ((UInt8, 1), mkStream c 36)).
    cbn [fst snd]. rewrite S1.
    rewrite Hsize, !Z.quot_1_r.
    rewrite !(to_int_small n) by lia. reflexivity.
  - split; [reflexivity|]. split; [reflexivity|]. split; [reflexivity|].
    apply (pull_uint8 payload
             (tag "RIFF" ++ [h0; h1; h2; h3] ++ tag "WAVE"
                ++ tag "fmt " ++ [x10; x00; x00; x00]
                ++ [x01; x00; x01; x00; r0; r1; r2; r3; a0; a1; a2; a3;
                    x01; x00; x08; x00]
                ++ tag "data" ++ [s0; s1; s2; s3])%list
             trailing); [reflexivity|reflexivity|reflexivity|exact Hint].
Qed.

(** A well-formed file of 47 bytes with the samples 00, FF, 80. *)
Lemma mono8_end_to_end_witness :
  fourcc x03 x00 x00 x00 = Z.of_nat (List.length [x00; xff; x80]) /\
  Z.of_nat (List.length [x00; xff; x80]) < 2147483648 /\
  exists this,
    WaveFileReader_ctor 2 mono8WellFormed = Ok this /\
    getFrameCount this = 3 /\
    pullSamples 3 this half
    = map (fun b => toNormalizedFloat (byte_val b) 0 UINT8_MAX)
          [x00; xff; x80] /\
    successfulCalls 4 this half = Some 3%nat.
Proof.
  assert (H1 : fourcc x03 x00 x00 x00 = Z.of_nat (List.length [x00; xff; x80]))
    by reflexivity.
  assert (H2 : Z.of_nat (List.length [x00; xff; x80]) < 2147483648)
    by (vm_compute; reflexivity).
  split; [exact H1|]. split; [exact H2|].
  destruct (mono8_end_to_end 0 x27 x00 x00 x00 x40 x1f x00 x00
              x40 x1f x00 x00 x03 x00 x00 x00 [x00; xff; x80] [] half H1 H2)
    as (this & Hc & _ & _ & Hf & Hp & Hs).
  exists this. split; [exact Hc|]. split; [exact Hf|]. split; [exact Hp|exact Hs].
Defined.

(* ================================================================= *)
(** ** 16-bit samples *)

(** Two bytes at any cursor of any file. *)
Lemma decodeSample_Int16_at
    (c : list byte) (p : Z) (pre : list byte) (b0 b1 : byte)
    (post : list byte) :
  c = (pre ++ [b0; b1] ++ post)%list ->
  p = Z.of_nat (List.length pre) ->
  decodeSample Int16 (mkStream c p)
  = Ok (toNormalizedFloat (to_sint 16 (byte_val b0 + 256 * byte_val b1))
          INT16_MIN INT16_MAX,
        mkStream c (p + 2)).
Proof.
  intros Hc Hp. pose proof (read_le_at c p pre [b0; b1] post Hc Hp) as R.
  cbn [List.length map le_value] in R.
  unfold decodeSample, read_int16, bind. rewrite R. unfold ret.
  replace (byte_val b0 + 256 * (byte_val b1 + 256 * 0))
    with (byte_val b0 + 256 * byte_val b1) by lia.
  reflexivity.
Qed.

(** X14: for every stream of format Int16 with samples left, at every
    cursor of every file, [getNextSample] delivers the two bytes at the
    cursor, in little-endian order, read as a two's-complement number
    between -32768 and 32767 and sent through
    [toNormalizedFloat(raw, INT16_MIN, INT16_MAX)], and moves on by two
    bytes.  The bytes 00 80 decode to exactly -1.0 and FF 7F to exactly
    1.0.  Raw 0 (bytes 00 00) decodes to 2^-16 and raw -1 (bytes FF FF) to
    -2^-16, so digital silence is not 0.0. *)
Theorem int16_decoding
    (this : WaveFileReader) (sample : float)
    (pre : list byte) (b0 b1 : byte) (post : list byte) :
  sampleFormat this = Int16 ->
  remainingSamples this <> 0 ->
  file this = mkStream (pre ++ [b0; b1] ++ post) (Z.of_nat (List.length pre)) ->
  let v := byte_val b0 + 256 * byte_val b1 in
  let s := toNormalizedFloat (to_sint 16 v) INT16_MIN INT16_MAX in
  getNextSample this sample
  = Returned true s
      (withFile this
         (mkStream (pre ++ [b0; b1] ++ post) (Z.of_nat (List.length pre) + 2))
         (to_int (remainingSamples this - 1))) /\
  to_sint 16 v = (if v <? 32768 then v else v - 65536) /\
  INT16_MIN <= to_sint 16 v <= INT16_MAX /\
  ([b0; b1] = [x00; x80] -> s = minus_one) /\
  ([b0; b1] = [xff; x7f] -> s = one) /\
  ([b0; b1] = [x00; x00] -> s = S754_finite false 8388608 (-39)) /\
  ([b0; b1] = [xff; xff] -> s = S754_finite true 8388608 (-39)).
Proof.
  intros Hfmt Hrem Hfile v s.
  pose proof (byte_val_range b0). pose proof (byte_val_range b1).
  assert (Hv : 0 <= v < 65536) by (subst v; lia).
  assert (Hs : to_sint 16 v = (if v <? 32768 then v else v - 65536)).
  { unfold to_sint. change (2 ^ (16 - 1)) with 32768.
    change (2 ^ 16) with 65536.
    destruct (Z.ltb_spec v 32768); Z.div_mod_to_equations; lia. }
  split.
  { apply getNextSample_decodes; [exact Hrem|]. rewrite Hfmt, Hfile.
    apply (decodeSample_Int16_at _ _ pre b0 b1 post); reflexivity. }
  split; [exact Hs|]. split.
  { rewrite Hs. unfold INT16_MIN, INT16_MAX.
    destruct (Z.ltb_spec v 32768); lia. }
  repeat split; intros E; inversion E; subst b0 b1; subst s v;
    vm_compute; reflexivity.
Qed.

(** A 16-bit stream with its cursor on the bytes 00 80, one byte into the
    file: the call delivers -1.0 and moves on by two bytes. *)
Lemma int16_decoding_witness :
  sampleFormat int16Stream = Int16 /\
  remainingSamples int16Stream <> 0 /\
  file int16Stream
  = mkStream ([x11] ++ [x00; x80] ++ [xff; x7f])
             (Z.of_nat (List.length [x11])) /\
  getNextSample int16Stream half
  = Returned true minus_one
      (withFile int16Stream (mkStream [x11; x00; x80; xff; x7f] 3) 1).
Proof.
  assert (H1 : sampleFormat int16Stream = Int16) by reflexivity.
  assert (H2 : remainingSamples int16Stream <> 0) by discriminate.
  assert (H3 : file int16Stream
               = mkStream ([x11] ++ [x00; x80] ++ [xff; x7f])
                          (Z.of_nat (List.length [x11]))) by reflexivity.
  split; [exact H1|]. split; [exact H2|]. split; [exact H3|].
  destruct (int16_decoding int16Stream half [x11] x00 x80 [xff; x7f]
              H1 H2 H3) as (G & _ & _ & E & _).
  rewrite G, (E eq_refl). reflexivity.
Defined.
